(** * node_manager_daemon_fkie.screen: session names, registry lines, files

    A shallow embedding of [screen.py] of the node manager daemon, and the
    properties of its name codec, of the parser of [screen -ls] lines, of
    the derived file names, of the configuration writer and of the log
    cleaner.

    Python byte strings are [string]; [None] is the [None] of [option];
    dictionaries are [gmap string string]. *)

From Stdlib Require Import Ascii String ZArith Decimal DecimalString DecimalPos Bool.
From stdpp Require Import gmap strings list fin_maps.

(** ** Python string primitives *)

Module Py.

(** [s.startswith(p)] *)
Definition startswith (s p : string) : bool := String.prefix p s.

(** [s.replace(old, new)] with an empty [old]: [new] is put before every
    character and at the end. *)
Fixpoint replace_empty (new s : string) : string :=
  match s with
  | EmptyString => new
  | String c s' => new +:+ String c (replace_empty new s')
  end.

(** The left-to-right scan of [s.replace(old, new)] for a non-empty [old].
    [skip] counts the characters of a match that are still to be passed
    over: a match found at a position emits [new] and the scan resumes
    behind the match, so occurrences never overlap. *)
Fixpoint replace_from (old new : string) (skip : nat) (s : string) : string :=
  match s with
  | EmptyString => EmptyString
  | String c s' =>
      match skip with
      | S k => replace_from old new k s'
      | O =>
          if String.prefix old s
          then new +:+ replace_from old new (String.length old - 1) s'
          else String c (replace_from old new 0 s')
      end
  end.

(** [s.replace(old, new)] *)
Definition replace (s old new : string) : string :=
  match old with
  | EmptyString => replace_empty new s
  | _ => replace_from old new 0 s
  end.

(** [c in s] for a one-character [c] *)
Fixpoint contains (c : ascii) (s : string) : bool :=
  match s with
  | EmptyString => false
  | String d s' => Ascii.eqb c d || contains c s'
  end.

(** Truth value of a string: [if s:] *)
Definition truthy (s : string) : bool :=
  match s with
  | EmptyString => false
  | _ => true
  end.

(** The white space of byte strings: space, tab, line feed, vertical tab,
    form feed and carriage return. *)
Definition isspace (c : ascii) : bool :=
  Ascii.eqb c " "%char || Ascii.eqb c "009"%char || Ascii.eqb c "010"%char
  || Ascii.eqb c "011"%char || Ascii.eqb c "012"%char || Ascii.eqb c "013"%char.

Fixpoint lstrip (s : string) : string :=
  match s with
  | EmptyString => EmptyString
  | String c s' => if isspace c then lstrip s' else s
  end.

Fixpoint rstrip (s : string) : string :=
  match s with
  | EmptyString => EmptyString
  | String c s' =>
      match rstrip s' with
      | EmptyString => if isspace c then EmptyString else String c EmptyString
      | r => String c r
      end
  end.

(** [s.strip()] *)
Definition strip (s : string) : string := rstrip (lstrip s).

(** Puts a character in front of the first string of a list. *)
Definition cons_head (c : ascii) (l : list string) : list string :=
  match l with
  | [] => [String c EmptyString]
  | h :: t => String c h :: t
  end.

(** [s.split(sep, maxsplit)] for a one-character [sep]; [maxsplit] is
    [None] when the call gives none. The list is never empty. *)
Fixpoint split (sep : ascii) (maxsplit : option nat) (s : string) : list string :=
  match s with
  | EmptyString => [EmptyString]
  | String c s' =>
      if Ascii.eqb c sep then
        match maxsplit with
        | Some O => cons_head c (split sep maxsplit s')
        | Some (S k) => EmptyString :: split sep (Some k) s'
        | None => EmptyString :: split sep None s'
        end
      else cons_head c (split sep maxsplit s')
  end.

(** [s.splitlines()] of a byte string: lines end at a line feed, a
    carriage return or a carriage return followed by a line feed; the line
    ends are dropped and a final line end opens no further line.
    [after_cr] says that the character before was a carriage return. *)
Fixpoint splitlines_from (after_cr : bool) (s : string) : list string :=
  match s with
  | EmptyString => []
  | String c s' =>
      if Ascii.eqb c "010"%char then
        if after_cr then splitlines_from false s'
        else EmptyString :: splitlines_from false s'
      else if Ascii.eqb c "013"%char then EmptyString :: splitlines_from true s'
      else cons_head c (splitlines_from false s')
  end.

Definition splitlines (s : string) : list string := splitlines_from false s.

Definition isdigit (c : ascii) : bool :=
  (48 <=? nat_of_ascii c)%nat && (nat_of_ascii c <=? 57)%nat.

(** Value of a run of decimal digits read after the value [acc]; [None]
    when a character is no digit. *)
Fixpoint digits_value (acc : Z) (s : string) : option Z :=
  match s with
  | EmptyString => Some acc
  | String c s' =>
      if isdigit c
      then digits_value (10 * acc + (Z.of_nat (nat_of_ascii c) - 48)) s'
      else None
  end.

(** A non-empty run of decimal digits. *)
Definition decimal (s : string) : option Z :=
  match s with
  | EmptyString => None
  | _ => digits_value 0 s
  end.

(** [int(s)] on a byte string: white space around the literal is ignored,
    the literal is an optional sign and at least one decimal digit. [None]
    stands for the [ValueError] of every other string. *)
Definition int (s : string) : option Z :=
  match strip s with
  | String "-" ds => Z.opp <$> decimal ds
  | String "+" ds => decimal ds
  | ds => decimal ds
  end.

(** ['%d' % z] *)
Definition format_d (z : Z) : string := NilZero.string_of_int (Z.to_int z).

End Py.

(** Exceptions that the modelled code can raise. *)
Inductive exn : Type :=
  | TypeError
  | OSError (path : string).

Inductive outcome (A : Type) : Type :=
  | Ok (a : A)
  | Raise (e : exn).
Arguments Ok {A} a.
Arguments Raise {A} e.

#[global] Instance outcome_bind : MBind outcome := fun A B f x =>
  match x with
  | Ok a => f a
  | Raise e => Raise e
  end.

(** ** Names of the ROS graph

    [rospy.names.ns_join] is the client library's [rosgraph.names.ns_join];
    the three functions below follow that library. *)

Definition PRIV_NAME : string := "~".
Definition SEP : string := "/".

Definition is_private (name : string) : bool :=
  match name with
  | String c _ => Ascii.eqb c "~"%char
  | EmptyString => false
  end.

Definition is_global (name : string) : bool :=
  match name with
  | String c _ => Ascii.eqb c "/"%char
  | EmptyString => false
  end.

(** The last character of a string, [ns[-1]]. *)
Fixpoint last_char (s : string) : option ascii :=
  match s with
  | EmptyString => None
  | String c EmptyString => Some c
  | String _ s' => last_char s'
  end.

Definition ns_join (ns name : string) : string :=
  if is_private name || is_global name then name
  else if String.eqb ns PRIV_NAME then PRIV_NAME +:+ name
  else match last_char ns with
       | None => name
       | Some c => if Ascii.eqb c "/"%char then ns +:+ name else ns +:+ SEP +:+ name
       end.

(** ** The name codec *)

Definition SCREEN : string := "/usr/bin/screen".
Definition SLASH_SEP : string := "_".

Definition create_session_name (node : option string) : string :=
  match node with
  | None => ""
  | Some node =>
      let result := Py.replace (ns_join "/" node) SLASH_SEP (SLASH_SEP +:+ SLASH_SEP) in
      let result := Py.replace result "/" SLASH_SEP in
      result
  end.

Definition session_name2node_name (session : string) : string :=
  let node_name := Py.replace session (SLASH_SEP +:+ SLASH_SEP) "//" in
  let node_name := Py.replace node_name SLASH_SEP "/" in
  let node_name := Py.replace node_name "//" SLASH_SEP in
  node_name.

(** ** Lines of the session registry *)

(** The first component of the pair that [split_session_name] returns is
    an integer on every path but the one of an absent session, where it is
    a string. *)
Inductive pid_value : Type :=
  | PidInt (z : Z)
  | PidStr (s : string).

Definition split_session_name (session : option string) : pid_value * string :=
  match session with
  | None => (PidStr "", "")
  | Some session =>
      match Py.split "." (Some 1%nat) session with
      | [pid; rest] =>
          match Py.int (Py.strip pid) with
          | None => (PidInt (-1), "")
          | Some pid =>
              match Py.split "009" None rest with
              | [] => (PidInt (-1), "")
              | node0 :: _ => (PidInt pid, Py.strip node0)
              end
          end
      | _ => (PidInt (-1), "")
      end
  end.

(** [pid != -1]: a string differs from every integer. *)
Definition pid_ne (pid : pid_value) (z : Z) : bool :=
  match pid with
  | PidInt p => negb (p =? z)%Z
  | PidStr _ => true
  end.

(** ['%d.%s' % (pid, nodepart)]: [%d] refuses a string. *)
Definition format_screen_name (pid : pid_value) (nodepart : string) : outcome string :=
  match pid with
  | PidInt p => Ok (Py.format_d p +:+ "." +:+ nodepart)
  | PidStr _ => Raise TypeError
  end.

(** The body of the loop of [get_active_screens] for one line. *)
Definition active_screens_item (nodename : string) (result : gmap string string)
    (item : string) : outcome (gmap string string) :=
  let '(pid, nodepart) := split_session_name (Some item) in
  if pid_ne pid (-1) then
    screen_name ← format_screen_name pid nodepart;
    if Py.truthy nodename then
      if Py.startswith nodepart "_" then
        if String.eqb nodename (session_name2node_name nodepart)
        then Ok (<[screen_name := nodename]> result)
        else Ok result
      else Ok result
    else
      let name := session_name2node_name nodepart in
      Ok (<[screen_name := name]> result)
  else Ok result.

(** The loop over the lines. *)
Fixpoint active_screens_lines (nodename : string) (result : gmap string string)
    (splits : list string) : outcome (gmap string string) :=
  match splits with
  | [] => Ok result
  | item :: splits' =>
      result' ← active_screens_item nodename result item;
      active_screens_lines nodename result' splits'
  end.

(** [get_active_screens]; [output] is what [screen -ls] wrote, as read
    from the pipe of the child process. *)
Definition get_active_screens (output : string) (nodename : string)
    : outcome (gmap string string) :=
  if Py.truthy output
  then active_screens_lines nodename ∅ (Py.splitlines output)
  else Ok ∅.

(** ** Derived files *)

Section Files.

(** The directory of the logs, fixed when the module is loaded. *)
Variable LOG_PATH : string.

Definition get_logfile (session node : option string) : string :=
  match session, node with
  | Some session, _ => LOG_PATH +:+ session +:+ ".log"
  | None, Some node => LOG_PATH +:+ create_session_name (Some node) +:+ ".log"
  | None, None => LOG_PATH +:+ "unknown" +:+ ".log"
  end.

(** [s.strip('/')] *)
Fixpoint lstrip_slash (s : string) : string :=
  match s with
  | EmptyString => EmptyString
  | String c s' => if Ascii.eqb c "/"%char then lstrip_slash s' else s
  end.

Fixpoint rstrip_slash (s : string) : string :=
  match s with
  | EmptyString => EmptyString
  | String c s' =>
      match rstrip_slash s' with
      | EmptyString => if Ascii.eqb c "/"%char then EmptyString else String c EmptyString
      | r => String c r
      end
  end.

Definition strip_slash (s : string) : string := rstrip_slash (lstrip_slash s).

Definition get_ros_logfile (node : option string) : string :=
  match node with
  | Some node => LOG_PATH +:+ Py.replace (strip_slash node) "/" "_" +:+ ".log"
  | None => ""
  end.

Definition get_cfgfile (session node : option string) : string :=
  match session, node with
  | Some session, _ => LOG_PATH +:+ session +:+ ".conf"
  | None, Some node => LOG_PATH +:+ create_session_name (Some node) +:+ ".conf"
  | None, None => LOG_PATH +:+ "unknown" +:+ ".conf"
  end.

Definition get_pidfile (session node : option string) : string :=
  match session, node with
  | Some session, _ => LOG_PATH +:+ session +:+ ".pid"
  | None, Some node => LOG_PATH +:+ create_session_name (Some node) +:+ ".pid"
  | None, None => LOG_PATH +:+ "unknown" +:+ ".pid"
  end.

(** ** The configuration writer *)

(** A file open for writing is the list of the strings written to it so
    far, oldest first. *)
Definition file := list string.

Definition write (f : file) (s : string) : file := f ++ [s].

(** The text of the file. *)
Definition file_text (f : file) : string := foldr String.append "" f.

Definition newline : string := String "010" "".

Definition _append_env (cfgfile : file) (arg : string) (env : gmap string string)
    : file * bool :=
  match env !! arg with
  | Some value =>
      if Py.truthy value
      then (write cfgfile ("setenv " +:+ arg +:+ " " +:+ value +:+ newline), true)
      else (cfgfile, false)
  | None => (cfgfile, false)
  end.

(** The loop of [get_cmd] over the names to forward. *)
Fixpoint append_envs (f : file) (addkeys : list string) (env environ : gmap string string)
    : file :=
  match addkeys with
  | [] => f
  | key :: addkeys' =>
      let '(f1, handled) := _append_env f key env in
      let f2 := if handled then f1 else fst (_append_env f1 key environ) in
      append_envs f2 addkeys' env environ
  end.

Definition builtin_keys : list string :=
  [ "LD_LIBRARY_PATH"; "ROS_ETC_DIR"; "ROS_MASTER_URI"; "ROS_HOSTNAME";
    "ROS_NAMESPACE"; "ROSCONSOLE_FORMAT"; "ROSCONSOLE_CONFIG_FILE";
    "RESPAWN_DELAY"; "RESPAWN_MAX"; "RESPAWN_MIN_RUNTIME" ].

(** [get_cmd]: the name of the configuration file, what is written to it
    once it is open, and the command that is returned. [environ] is
    [os.environ]. Opening the file and creating its directory are left to
    the file system. *)
Definition get_cmd (environ : gmap string string) (node : option string)
    (env : gmap string string) (keys : list string) : string * file * string :=
  let filename := get_cfgfile None node in
  let f : file := [] in
  let f := write f ("logfile " +:+ get_logfile None node +:+ newline) in
  let f := write f ("logfile flush 0" +:+ newline) in
  let f := write f ("defscrollback 10000" +:+ newline) in
  let addkeys := keys ++ builtin_keys in
  let f := append_envs f addkeys env environ in
  (filename, f,
   SCREEN +:+ " -c " +:+ filename +:+ " -L -dmS " +:+ create_session_name node).

(** ** The log cleaner *)

(** What a path names: a regular file, which the system lets the process
    remove or not, or a directory. *)
Inductive entry : Type :=
  | RegularFile (removable : bool)
  | Directory.

(** [os.path.isfile] *)
Definition isfile (fs : gmap string entry) (path : string) : bool :=
  match fs !! path with
  | Some (RegularFile _) => true
  | _ => false
  end.

(** [os.remove] *)
Definition remove (fs : gmap string entry) (path : string) : outcome (gmap string entry) :=
  match fs !! path with
  | Some (RegularFile true) => Ok (delete path fs)
  | _ => Raise (OSError path)
  end.

(** [if os.path.isfile(path): os.remove(path)] *)
Definition remove_if_file (fs : gmap string entry) (path : string)
    : outcome (gmap string entry) :=
  if isfile fs path then remove fs path else Ok fs.

Definition delete_log (fs : gmap string entry) (nodename : option string)
    : outcome (gmap string entry) :=
  let screen_log := get_logfile None nodename in
  let screen_conf := get_cfgfile None nodename in
  let pid_file := get_pidfile None nodename in
  let roslog := get_ros_logfile nodename in
  fs ← remove_if_file fs screen_log;
  fs ← remove_if_file fs screen_conf;
  fs ← remove_if_file fs pid_file;
  remove_if_file fs roslog.

End Files.

(** ** Definitions used to state the properties *)

(** [s[n:]] *)
Fixpoint drop_chars (n : nat) (s : string) : string :=
  match n, s with
  | O, _ => s
  | S k, String _ s' => drop_chars k s'
  | S _, EmptyString => EmptyString
  end.

(** Every occurrence of the character [c] replaced by [new], the other
    characters kept: what the words "every [c] is replaced by [new]" say. *)
Fixpoint subst_char (c : ascii) (new : string) (s : string) : string :=
  match s with
  | EmptyString => EmptyString
  | String d s' =>
      if Ascii.eqb d c then new +:+ subst_char c new s'
      else String d (subst_char c new s')
  end.

(** A name is well escaped when no slash is directly followed by a slash
    or by an underscore: no component but the last is empty and no
    component starts with the delimiter. *)
Fixpoint well_escaped (s : string) : bool :=
  match s with
  | EmptyString => true
  | String c s' =>
      (if Ascii.eqb c "/"%char
       then negb (Py.startswith s' "/" || Py.startswith s' "_")
       else true)
      && well_escaped s'
  end.

(** A component of a name: not empty, without slash, not starting with
    the delimiter. *)
Definition component (s : string) : bool :=
  Py.truthy s && negb (Py.contains "/" s) && negb (Py.startswith s "_").

(** The absolute name with the given components. *)
Fixpoint path_of (components : list string) : string :=
  match components with
  | [] => EmptyString
  | c :: cs => "/" +:+ c +:+ path_of cs
  end.

(** The name made absolute: a slash is put in front unless the name starts
    with a slash or with the tilde of private names. *)
Definition absolute (name : string) : string :=
  if is_global name || is_private name then name else "/" +:+ name.

(** The part of a string before the first occurrence of [c], the whole
    string when there is none. *)
Fixpoint before (c : ascii) (s : string) : string :=
  match s with
  | EmptyString => EmptyString
  | String d s' => if Ascii.eqb d c then EmptyString else String d (before c s')
  end.

Fixpoint all_digits (s : string) : bool :=
  match s with
  | EmptyString => true
  | String c s' => Py.isdigit c && all_digits s'
  end.

(** The number that a string of decimal digits denotes, by position: the
    first digit counts ten to the number of digits that follow. *)
Fixpoint decimal_value (s : string) : Z :=
  match s with
  | EmptyString => 0
  | String c s' =>
      (Z.of_nat (nat_of_ascii c) - 48) * 10 ^ Z.of_nat (String.length s')
      + decimal_value s'
  end.

(** The entry that a line of the registry adds to the result of
    [get_active_screens], if it adds one. *)
Definition line_entry (nodename item : string) : option (string * string) :=
  match split_session_name (Some item) with
  | (PidInt pid, nodepart) =>
      if (pid =? -1)%Z then None
      else
        let screen_name := Py.format_d pid +:+ "." +:+ nodepart in
        if Py.truthy nodename then
          if Py.startswith nodepart "_"
             && String.eqb nodename (session_name2node_name nodepart)
          then Some (screen_name, nodename)
          else None
        else Some (screen_name, session_name2node_name nodepart)
  | (PidStr _, _) => None
  end.

Definition add_entry (nodename : string) (result : gmap string string) (item : string)
    : gmap string string :=
  match line_entry nodename item with
  | Some (screen_name, name) => <[screen_name := name]> result
  | None => result
  end.

(** A line of the registry with a valid process id and its session. *)
Definition session_line (item : string) (pid : Z) (nodepart : string) : Prop :=
  split_session_name (Some item) = (PidInt pid, nodepart) ∧ pid ≠ (-1)%Z.

(** The line of the configuration file that sets a variable. *)
Definition setenv_line (name value : string) : string :=
  "setenv " +:+ name +:+ " " +:+ value +:+ newline.

(** The lines that the configuration writer owes to one name: the line
    with the value of the caller if the caller has a non-empty one, else
    the line with the value of the process environment if that has a
    non-empty one, else none. *)
Definition forwarded (env environ : gmap string string) (name : string) : list string :=
  match env !! name with
  | Some (String c v) => [setenv_line name (String c v)]
  | _ =>
      match environ !! name with
      | Some (String c v) => [setenv_line name (String c v)]
      | _ => []
      end
  end.

(** The four files of a node, in the order in which [delete_log] visits
    them. *)
Definition log_files (LOG_PATH : string) (nodename : option string) : list string :=
  [ get_logfile LOG_PATH None nodename; get_cfgfile LOG_PATH None nodename;
    get_pidfile LOG_PATH None nodename; get_ros_logfile LOG_PATH nodename ].

(** Removing the files among a list of paths, one after the other. *)
Fixpoint remove_files (fs : gmap string entry) (paths : list string)
    : outcome (gmap string entry) :=
  match paths with
  | [] => Ok fs
  | path :: paths' => fs' ← remove_if_file fs path; remove_files fs' paths'
  end.

(** What [screen -ls] writes for two detached sessions. *)
Definition sample_registry : string :=
  "There are screens on:" +:+ newline
  +:+ String "009" "123._a_b" +:+ String "009" "(Detached)" +:+ newline
  +:+ String "009" "45._x" +:+ String "009" "(Detached)" +:+ newline
  +:+ "2 Sockets in /run/screen/S-ros." +:+ newline.

(** A string without white space. *)
Fixpoint no_space (s : string) : bool :=
  match s with
  | EmptyString => true
  | String c s' => negb (Py.isspace c) && no_space s'
  end.

(** [os.path.join(a, b)] of POSIX paths. *)
Definition path_join (a b : string) : string :=
  if Py.startswith b "/" then b
  else match last_char a with
       | None => b
       | Some c => if Ascii.eqb c "/"%char then a +:+ b else a +:+ "/" +:+ b
       end.

(** The value that the module gives [LOG_PATH] when it is loaded:
    [environ] is [os.environ] and [home] is [os.path.expanduser('~')]. *)
Definition log_path (environ : gmap string string) (home : string) : string :=
  match environ !! "ROS_LOG_DIR" with
  | Some (String c dir) => String c dir +:+ "/"
  | _ => path_join home ".ros/log/"
  end.

(** ** The scan of [replace] *)

Lemma prefix_cons (a b : ascii) (s t : string) :
  String.prefix (String a s) (String b t) = Ascii.eqb a b && String.prefix s t.
Proof.
  simpl. destruct (ascii_dec a b) as [->|Hne].
  - by rewrite Ascii.eqb_refl.
  - apply Ascii.eqb_neq in Hne. by rewrite Hne.
Qed.

Lemma prefix_nil (t : string) : String.prefix "" t = true.
Proof. by destruct t. Qed.

(** Replacing a one-character string goes character by character. *)
Lemma replace_char (c : ascii) (new s : string) :
  Py.replace s (String c "") new = subst_char c new s.
Proof.
  unfold Py.replace. induction s as [|d s IH]; [done|].
  cbn [Py.replace_from subst_char]. rewrite prefix_cons, prefix_nil, andb_true_r.
  rewrite (Ascii.eqb_sym c d). cbn [String.length Nat.sub].
  destruct (Ascii.eqb d c); by rewrite IH.
Qed.

Lemma contains_app (c : ascii) (s t : string) :
  Py.contains c (s +:+ t) = Py.contains c s || Py.contains c t.
Proof.
  induction s as [|d s IH]; [done|]. simpl. by rewrite IH, orb_assoc.
Qed.

Lemma contains_subst_char (c : ascii) (new s : string) :
  Py.contains c new = false → Py.contains c (subst_char c new s) = false.
Proof.
  intros Hnew. induction s as [|d s IH]; [done|]. simpl.
  destruct (Ascii.eqb d c) eqn:Hd.
  - by rewrite contains_app, Hnew, IH.
  - simpl. by rewrite (Ascii.eqb_sym c d), Hd, IH.
Qed.

Lemma append_cons (c : ascii) (s t : string) : String c s +:+ t = String c (s +:+ t).
Proof. reflexivity. Qed.

Lemma append_nil_l (t : string) : "" +:+ t = t.
Proof. reflexivity. Qed.

Lemma append_assoc (s t u : string) : (s +:+ t) +:+ u = s +:+ (t +:+ u).
Proof. induction s as [|c s IH]; [done|]. by rewrite !append_cons, IH. Qed.

Lemma append_nil_r (s : string) : s +:+ "" = s.
Proof. induction s as [|c s IH]; [done|]. by rewrite append_cons, IH. Qed.

Lemma subst_char_app (c : ascii) (new s t : string) :
  subst_char c new (s +:+ t) = subst_char c new s +:+ subst_char c new t.
Proof.
  induction s as [|d s IH]; [done|]. simpl.
  destruct (Ascii.eqb d c); rewrite IH; [|done].
  by rewrite append_assoc.
Qed.

(** The equations of the scan. *)
Lemma replace_from_cons (old new : string) (c : ascii) (s : string) :
  Py.replace_from old new 0 (String c s)
  = if String.prefix old (String c s)
    then new +:+ Py.replace_from old new (String.length old - 1) s
    else String c (Py.replace_from old new 0 s).
Proof. reflexivity. Qed.

Lemma replace_from_skip (old new : string) (k : nat) (c : ascii) (s : string) :
  Py.replace_from old new (S k) (String c s) = Py.replace_from old new k s.
Proof. reflexivity. Qed.

(** The scan resumes behind the characters it passes over. *)
Lemma replace_from_drop (old new : string) (k : nat) (s : string) :
  Py.replace_from old new k s = Py.replace_from old new 0 (drop_chars k s).
Proof.
  revert k. induction s as [|c s IH]; intros [|k]; try done.
  rewrite replace_from_skip. apply IH.
Qed.

(** [replace] with a non-empty [old], position by position: at a match
    [new] is written and the scan goes on behind the match, elsewhere the
    character is kept. *)
Lemma replace_match (old new s : string) :
  old ≠ "" → String.prefix old s = true →
  Py.replace s old new
  = new +:+ Py.replace (drop_chars (String.length old) s) old new.
Proof.
  destruct old as [|a old]; [done|]. intros _ H. unfold Py.replace.
  destruct s as [|c s]; [done|].
  rewrite replace_from_cons, H, replace_from_drop.
  cbn [String.length drop_chars Nat.sub]. by rewrite Nat.sub_0_r.
Qed.

Lemma replace_no_match (old new : string) (c : ascii) (s : string) :
  old ≠ "" → String.prefix old (String c s) = false →
  Py.replace (String c s) old new = String c (Py.replace s old new).
Proof.
  destruct old as [|a old]; [done|]. intros _ H. unfold Py.replace.
  by rewrite replace_from_cons, H.
Qed.

Lemma subst_char_cons (c : ascii) (new : string) (d : ascii) (s : string) :
  subst_char c new (String d s)
  = if Ascii.eqb d c then new +:+ subst_char c new s
    else String d (subst_char c new s).
Proof. reflexivity. Qed.

(** ** The name codec *)

Lemma ns_join_root (name : string) : ns_join "/" name = absolute name.
Proof.
  unfold ns_join, absolute. rewrite (orb_comm (is_global name)).
  by destruct (is_private name || is_global name).
Qed.

Lemma create_session_name_subst (name : string) :
  create_session_name (Some name)
  = subst_char "/" "_" (subst_char "_" "__" (absolute name)).
Proof.
  unfold create_session_name, SLASH_SEP.
  change ("_" +:+ "_") with "__". by rewrite !replace_char, ns_join_root.
Qed.

(** The first pass of the decoder is absorbed by the second: after both,
    every underscore of the session name has become a slash. *)
Lemma decode_first_passes (t : string) :
  subst_char "_" "/" (Py.replace t "__" "//") = subst_char "_" "/" t.
Proof.
  unfold Py.replace.
  enough (H : subst_char "_" "/" (Py.replace_from "__" "//" 0 t) = subst_char "_" "/" t
              ∧ ∀ c, subst_char "_" "/" (Py.replace_from "__" "//" 0 (String c t))
                     = subst_char "_" "/" (String c t)) by apply H.
  induction t as [|d t [IH1 IH2]].
  - split; [done|]. intros c. rewrite replace_from_cons, prefix_cons.
    change (String.prefix "_" "") with false. by rewrite andb_false_r.
  - split; [apply IH2|]. intros c.
    rewrite replace_from_cons, !prefix_cons, prefix_nil, andb_true_r.
    destruct (Ascii.eqb "_" c) eqn:Hc; cbn [andb].
    + apply Ascii.eqb_eq in Hc as <-.
      destruct (Ascii.eqb "_" d) eqn:Hd.
      * apply Ascii.eqb_eq in Hd as <-.
        change (String.length "__" - 1) with 1. rewrite replace_from_skip.
        rewrite subst_char_app, IH1. reflexivity.
      * rewrite (subst_char_cons _ _ "_"), IH2. reflexivity.
    + rewrite (subst_char_cons _ _ c), IH2. reflexivity.
Qed.

Lemma session_name2node_name_subst (t : string) :
  session_name2node_name t = Py.replace (subst_char "_" "/" t) "//" "_".
Proof.
  unfold session_name2node_name, SLASH_SEP. change ("_" +:+ "_") with "__".
  by rewrite (replace_char "_" "/"), decode_first_passes.
Qed.

(** Between the passes of the decoder an encoded name is the name with
    every underscore written as two slashes. *)
Lemma encoded_slashes (s : string) :
  subst_char "_" "/" (subst_char "/" "_" (subst_char "_" "__" s))
  = subst_char "_" "//" s.
Proof.
  induction s as [|c s IH]; [done|]. rewrite !(subst_char_cons _ _ c).
  destruct (Ascii.eqb c "_") eqn:Hc.
  - rewrite !subst_char_app, IH. reflexivity.
  - rewrite !(subst_char_cons _ _ c). destruct (Ascii.eqb c "/") eqn:Hs.
    + apply Ascii.eqb_eq in Hs as ->. rewrite !subst_char_app, IH. reflexivity.
    + by rewrite !(subst_char_cons _ _ c), Hc, IH.
Qed.

Lemma decode_encode (name : string) :
  session_name2node_name (create_session_name (Some name))
  = Py.replace_from "//" "_" 0 (subst_char "_" "//" (absolute name)).
Proof.
  by rewrite session_name2node_name_subst, create_session_name_subst, encoded_slashes.
Qed.

Lemma startswith_cons (c d : ascii) (s : string) :
  Py.startswith (String c s) (String d "") = Ascii.eqb d c.
Proof. unfold Py.startswith. by rewrite prefix_cons, prefix_nil, andb_true_r. Qed.

Lemma startswith_doubled (s : string) :
  Py.startswith (subst_char "_" "//" s) "/"
  = Py.startswith s "/" || Py.startswith s "_".
Proof.
  destruct s as [|c s]; [done|]. rewrite subst_char_cons, !startswith_cons.
  destruct (Ascii.eqb c "_") eqn:Hc.
  - apply Ascii.eqb_eq in Hc as ->. reflexivity.
  - by rewrite startswith_cons, (Ascii.eqb_sym "_" c), Hc, orb_false_r.
Qed.

(** One step of the last pass of the decoder on a doubled name. *)
Lemma collapse_cons (c : ascii) (s : string) :
  Py.replace_from "//" "_" 0 (subst_char "_" "//" (String c s))
  = if Ascii.eqb c "_" then String "_" (Py.replace_from "//" "_" 0 (subst_char "_" "//" s))
    else if Ascii.eqb c "/" && (Py.startswith s "/" || Py.startswith s "_")
    then String "_" (Py.replace_from "//" "_" 1 (subst_char "_" "//" s))
    else String c (Py.replace_from "//" "_" 0 (subst_char "_" "//" s)).
Proof.
  rewrite subst_char_cons. destruct (Ascii.eqb c "_") eqn:Hc.
  { rewrite !append_cons, append_nil_l, replace_from_cons, !prefix_cons, prefix_nil.
    reflexivity. }
  cbn [andb].
  rewrite replace_from_cons, prefix_cons, <- startswith_doubled.
  rewrite (Ascii.eqb_sym "/" c).
  destruct (subst_char "_" "//" s) as [|d u].
  - change (String.prefix "/" "") with false. change (Py.startswith "" "/") with false.
    by rewrite andb_false_r.
  - rewrite startswith_cons, prefix_cons, prefix_nil, andb_true_r.
    by destruct (Ascii.eqb c "/" && Ascii.eqb "/" d).
Qed.

Lemma collapse_doubled (s : string) :
  well_escaped s = true →
  Py.replace_from "//" "_" 0 (subst_char "_" "//" s) = s.
Proof.
  induction s as [|c s IH]; [done|]. cbn [well_escaped].
  intros [Hc Hs]%andb_true_iff. rewrite collapse_cons, (IH Hs).
  destruct (Ascii.eqb c "_") eqn:Hu.
  - by apply Ascii.eqb_eq in Hu as ->.
  - destruct (Ascii.eqb c "/"); [|done].
    apply negb_true_iff in Hc. by rewrite Hc.
Qed.

Lemma collapse_doubled_inv (s : string) :
  Py.replace_from "//" "_" 0 (subst_char "_" "//" s) = s →
  well_escaped s = true.
Proof.
  induction s as [|c s IH]; [done|]. rewrite collapse_cons. cbn [well_escaped].
  destruct (Ascii.eqb c "_") eqn:Hu.
  - apply Ascii.eqb_eq in Hu as ->. intros [= H]. by rewrite (IH H).
  - destruct (Ascii.eqb c "/") eqn:Hc; cbn [andb].
    + apply Ascii.eqb_eq in Hc as ->.
      destruct (Py.startswith s "/" || Py.startswith s "_"); [discriminate|].
      intros [= H]. by rewrite (IH H).
    + intros [= H]. by rewrite (IH H).
Qed.

Lemma absolute_global (name : string) : is_global name = true → absolute name = name.
Proof. unfold absolute. by intros ->. Qed.

(** C1, as the code has it. Decoding the session name of a node gives the
    name of the node back, for every name that starts with a slash and in
    which no slash is directly followed by a slash or by the delimiter (no
    empty inner component, no component that starts with an underscore). *)
Theorem session_name_round_trip (name : string) :
  is_global name = true →
  well_escaped name = true →
  session_name2node_name (create_session_name (Some name)) = name.
Proof.
  intros Hg Hw. rewrite decode_encode, (absolute_global _ Hg).
  by apply collapse_doubled.
Qed.

Lemma session_name_round_trip_witness :
  is_global "/group/my_node__1/" = true
  ∧ well_escaped "/group/my_node__1/" = true
  ∧ session_name2node_name (create_session_name (Some "/group/my_node__1/"))
    = "/group/my_node__1/".
Proof.
  split; [reflexivity|]. split; [reflexivity|].
  apply (session_name_round_trip "/group/my_node__1/"); reflexivity.
Defined.

(** X1. The condition of the round trip is the exact one: a name that
    starts with a slash and comes back from the codec is well escaped. *)
Lemma round_trip_only_if (name : string) :
  is_global name = true →
  session_name2node_name (create_session_name (Some name)) = name →
  well_escaped name = true.
Proof.
  intros Hg. rewrite decode_encode, (absolute_global _ Hg).
  apply collapse_doubled_inv.
Qed.

(** C1 as stated fails: a name that starts with a slash and has no
    underscore at all, but an empty inner component, does not come back
    from the codec; its two slashes are encoded like one underscore. *)
Lemma round_trip_empty_component :
  is_global "/a//b" = true
  ∧ Py.contains "_" "/a//b" = false
  ∧ create_session_name (Some "/a//b") = "_a__b"
  ∧ session_name2node_name (create_session_name (Some "/a//b")) ≠ "/a//b".
Proof. repeat split; discriminate. Qed.

Example round_trip_lost_1 :
  session_name2node_name (create_session_name (Some "/a/_b")) = "/a_/b".
Proof. reflexivity. Qed.

Example round_trip_lost_2 :
  session_name2node_name (create_session_name (Some "//a")) = "_a".
Proof. reflexivity. Qed.

(** Names built from components are well escaped. *)
Lemma well_escaped_no_slash (c t : string) :
  Py.contains "/" c = false → well_escaped (c +:+ t) = well_escaped t.
Proof.
  induction c as [|d c IH]; [done|]. cbn [Py.contains].
  intros [Hd Hc]%orb_false_iff. rewrite append_cons. cbn [well_escaped].
  by rewrite (Ascii.eqb_sym d "/"), Hd, (IH Hc).
Qed.

Lemma well_escaped_path_of (cs : list string) :
  forallb component cs = true → well_escaped (path_of cs) = true.
Proof.
  induction cs as [|c cs IH]; [done|]. cbn [forallb path_of].
  intros [Hc Hcs]%andb_true_iff. unfold component in Hc.
  apply andb_true_iff in Hc as [[Hne Hsl]%andb_true_iff Hus].
  apply negb_true_iff in Hsl, Hus.
  rewrite append_cons, append_nil_l. cbn [well_escaped].
  rewrite Ascii.eqb_refl, (well_escaped_no_slash _ _ Hsl), (IH Hcs), andb_true_r.
  destruct c as [|d c]; [done|]. rewrite append_cons, !startswith_cons.
  rewrite startswith_cons in Hus. cbn [Py.contains] in Hsl.
  apply orb_false_iff in Hsl as [Hd _]. by rewrite Hd, Hus.
Qed.

(** The round trip in terms of components. *)
Corollary round_trip_of_components (c : string) (cs : list string) :
  forallb component (c :: cs) = true →
  session_name2node_name (create_session_name (Some (path_of (c :: cs))))
  = path_of (c :: cs).
Proof.
  intros H. rewrite decode_encode, absolute_global by done.
  by apply collapse_doubled, well_escaped_path_of.
Qed.

(** C8. The session name of a node contains no slash, whatever the node
    name is. *)
Theorem create_session_name_no_slash (node : option string) :
  Py.contains "/" (create_session_name node) = false.
Proof.
  destruct node as [name|]; [|done].
  rewrite create_session_name_subst. by apply contains_subst_char.
Qed.

(** C5, as the code has it. An absent name gives the empty session name.
    Every other name, the empty one included, is first made absolute (a
    slash is put in front unless the name starts with a slash or with the
    tilde of a private name), then every underscore is doubled, then every
    slash becomes one underscore. *)
Theorem create_session_name_spec :
  create_session_name None = ""
  ∧ ∀ name : string,
      create_session_name (Some name)
      = subst_char "/" "_" (subst_char "_" "__" (absolute name)).
Proof. split; [done|]. apply create_session_name_subst. Qed.

(** C5 as stated fails: the empty name does not give the empty session
    name but the delimiter, and a private name gets no slash in front. *)
Lemma create_session_name_empty_name :
  create_session_name (Some "") ≠ ""
  ∧ create_session_name (Some "~n") ≠ subst_char "/" "_" (subst_char "_" "__" "/~n").
Proof. split; discriminate. Qed.

(** ** Lines of the session registry *)

Lemma split_zero (c : ascii) (s : string) : Py.split c (Some 0%nat) s = [s].
Proof.
  induction s as [|d s IH]; [done|]. cbn [Py.split]. rewrite IH.
  by destruct (Ascii.eqb d c).
Qed.

Lemma split_no_sep (c : ascii) (m : option nat) (s : string) :
  Py.contains c s = false → Py.split c m s = [s].
Proof.
  induction s as [|d s IH]; [done|]. cbn [Py.contains Py.split].
  intros [Hd Hs]%orb_false_iff. by rewrite (Ascii.eqb_sym d c), Hd, (IH Hs).
Qed.

Lemma split_once (c : ascii) (p rest : string) :
  Py.contains c p = false →
  Py.split c (Some 1%nat) (p +:+ String c rest) = [p; rest].
Proof.
  induction p as [|d p IH].
  - intros _. rewrite append_nil_l. cbn [Py.split].
    by rewrite Ascii.eqb_refl, split_zero.
  - cbn [Py.contains]. intros [Hd Hp]%orb_false_iff.
    rewrite append_cons. cbn [Py.split].
    by rewrite (Ascii.eqb_sym d c), Hd, (IH Hp).
Qed.

Lemma split_head (c : ascii) (s : string) :
  ∃ l, Py.split c None s = before c s :: l.
Proof.
  induction s as [|d s [l IH]]; [by exists []|]. cbn [Py.split before].
  destruct (Ascii.eqb d c); [by eexists|]. rewrite IH. by eexists.
Qed.

(** What [split_session_name] does with a line that has a dot. *)
Lemma split_session_name_dot (pid rest : string) :
  Py.contains "." pid = false →
  split_session_name (Some (pid +:+ "." +:+ rest))
  = match Py.int (Py.strip pid) with
    | Some n => (PidInt n, Py.strip (before "009" rest))
    | None => (PidInt (-1), "")
    end.
Proof.
  intros Hp. unfold split_session_name.
  change ("." +:+ rest) with (String "." rest). rewrite (split_once _ _ _ Hp).
  destruct (Py.int (Py.strip pid)); [|done].
  by destruct (split_head "009" rest) as [l ->].
Qed.

Lemma split_session_name_no_dot (session : string) :
  Py.contains "." session = false →
  split_session_name (Some session) = (PidInt (-1), "").
Proof.
  intros H. unfold split_session_name. by rewrite (split_no_sep _ _ _ H).
Qed.

(** On a line the first component is always an integer. *)
Lemma split_session_name_int (session : string) :
  ∃ pid, fst (split_session_name (Some session)) = PidInt pid.
Proof.
  unfold split_session_name.
  destruct (Py.split "." (Some 1%nat) session) as [|p [|r [|? ?]]]; try by eexists.
  destruct (Py.int (Py.strip p)); [|by eexists].
  destruct (Py.split "009" None r); by eexists.
Qed.

(** Decimal digits are neither white space nor a sign nor the dot. *)
Lemma isdigit_plain (c : ascii) :
  Py.isdigit c = true →
  Py.isspace c = false ∧ Ascii.eqb "." c = false
  ∧ Ascii.eqb c "-" = false ∧ Ascii.eqb c "+" = false.
Proof.
  destruct c as [[] [] [] [] [] [] [] []]; vm_compute; intros H;
    first [discriminate H | done].
Qed.

Lemma all_digits_no_dot (s : string) :
  all_digits s = true → Py.contains "." s = false.
Proof.
  induction s as [|c s IH]; [done|]. cbn [all_digits Py.contains].
  intros [Hc Hs]%andb_true_iff.
  destruct (isdigit_plain c Hc) as (_ & -> & _). by rewrite (IH Hs).
Qed.

Lemma all_digits_rstrip (s : string) : all_digits s = true → Py.rstrip s = s.
Proof.
  induction s as [|c s IH]; [done|]. cbn [all_digits Py.rstrip].
  intros [Hc Hs]%andb_true_iff. rewrite (IH Hs).
  destruct (isdigit_plain c Hc) as (-> & _). by destruct s.
Qed.

Lemma all_digits_strip (s : string) : all_digits s = true → Py.strip s = s.
Proof.
  intros H. unfold Py.strip.
  assert (Py.lstrip s = s) as ->; [|by apply all_digits_rstrip].
  destruct s as [|c s]; [done|]. cbn [all_digits] in H.
  apply andb_true_iff in H as [Hc _]. cbn [Py.lstrip].
  by destruct (isdigit_plain c Hc) as (-> & _).
Qed.

Lemma digits_value_all_digits (s : string) (acc : Z) :
  all_digits s = true →
  Py.digits_value acc s
  = Some (acc * 10 ^ Z.of_nat (String.length s) + decimal_value s)%Z.
Proof.
  revert acc. induction s as [|c s IH]; intros acc.
  - intros _. cbn. f_equal. lia.
  - cbn [all_digits]. intros [Hc Hs]%andb_true_iff.
    cbn [Py.digits_value decimal_value String.length]. rewrite Hc, (IH _ Hs).
    f_equal. rewrite Nat2Z.inj_succ, Z.pow_succ_r by lia. ring.
Qed.

(** [int] of a non-empty string of digits is the number the digits
    denote. *)
Lemma int_all_digits (s : string) :
  s ≠ "" → all_digits s = true → Py.int s = Some (decimal_value s).
Proof.
  intros Hne Hs. unfold Py.int. rewrite (all_digits_strip _ Hs).
  destruct s as [|c s]; [done|].
  assert (Py.decimal (String c s) = Some (decimal_value (String c s))) as <-.
  { unfold Py.decimal. rewrite (digits_value_all_digits _ _ Hs). f_equal; lia. }
  cbn [all_digits] in Hs. apply andb_true_iff in Hs as [Hc _].
  destruct (isdigit_plain c Hc) as (_ & _ & Hm & Hp).
  destruct c as [[] [] [] [] [] [] [] []]; first [discriminate Hm | discriminate Hp | reflexivity].
Qed.

(** C4. A line made of digits, a dot and the rest is split at the first
    dot; the process id is the number the digits denote and the fragment
    is the rest up to its first tab, with the white space at both ends
    removed. As soon as the part before the first dot, with the white
    space at its ends removed, is no integer, the result is the sentinel. *)
Theorem split_session_name_line :
  (∀ digits rest : string,
      digits ≠ "" → all_digits digits = true →
      split_session_name (Some (digits +:+ "." +:+ rest))
      = (PidInt (decimal_value digits), Py.strip (before "009" rest)))
  ∧ (∀ pid rest : string,
      Py.contains "." pid = false → Py.int (Py.strip pid) = None →
      split_session_name (Some (pid +:+ "." +:+ rest)) = (PidInt (-1), ""))
  ∧ split_session_name (Some ("12345._foo" +:+ String "009" "status text"))
    = (PidInt 12345, "_foo").
Proof.
  split; [|split; [|reflexivity]].
  - intros digits rest Hne Hd.
    rewrite split_session_name_dot by by apply all_digits_no_dot.
    by rewrite (all_digits_strip _ Hd), (int_all_digits _ Hne Hd).
  - intros pid rest Hp Hi. by rewrite (split_session_name_dot _ _ Hp), Hi.
Qed.

Lemma split_session_name_line_witness :
  split_session_name (Some ("0042" +:+ "." +:+ (" _a__b " +:+ String "009" "(Detached)")))
  = (PidInt 42, "_a__b")
  ∧ split_session_name (Some ("4 2" +:+ "." +:+ "_a")) = (PidInt (-1), "").
Proof.
  split.
  - apply (proj1 split_session_name_line "0042"); [discriminate|reflexivity].
  - apply (proj1 (proj2 split_session_name_line) "4 2"); reflexivity.
Defined.

(** The part of a line before the first dot may carry white space and a
    sign. *)
Lemma split_session_name_trimmed (pid rest : string) (n : Z) :
  Py.contains "." pid = false → Py.int (Py.strip pid) = Some n →
  split_session_name (Some (pid +:+ "." +:+ rest))
  = (PidInt n, Py.strip (before "009" rest)).
Proof. intros Hp Hi. by rewrite (split_session_name_dot _ _ Hp), Hi. Qed.

(** C2, as the code has it. An absent session gives a pair of empty
    strings; a string without dot gives the sentinel pair. *)
Theorem split_session_name_not_a_session :
  split_session_name None = (PidStr "", "")
  ∧ (∀ session : string,
       Py.contains "." session = false →
       split_session_name (Some session) = (PidInt (-1), ""))
  ∧ split_session_name (Some "not-a-session") = (PidInt (-1), "").
Proof.
  split; [done|]. split; [|done]. apply split_session_name_no_dot.
Qed.

Lemma split_session_name_not_a_session_witness :
  Py.contains "." "No Sockets found" = false
  ∧ split_session_name (Some "No Sockets found") = (PidInt (-1), "").
Proof.
  split; [reflexivity|].
  apply (proj1 (proj2 split_session_name_not_a_session)). reflexivity.
Defined.

(** C2 as stated fails for the absent session. *)
Lemma split_session_name_absent : split_session_name None ≠ (PidInt (-1), "").
Proof. discriminate. Qed.

(** A string splits at a dot into two parts exactly when it has a dot. *)
Lemma split_two_parts (session : string) :
  length (Py.split "." (Some 1%nat) session) = 2%nat
  ↔ Py.contains "." session = true.
Proof.
  induction session as [|c s IH]; [done|]. cbn [Py.split Py.contains].
  rewrite (Ascii.eqb_sym "." c). destruct (Ascii.eqb c ".").
  - by rewrite split_zero.
  - rewrite <- IH. cbn [orb]. by destruct (Py.split "." (Some 1%nat) s).
Qed.

(** ** The active screens *)

Lemma active_screens_item_entry (nodename : string) (result : gmap string string)
    (item : string) :
  active_screens_item nodename result item = Ok (add_entry nodename result item).
Proof.
  unfold active_screens_item, add_entry, line_entry.
  destruct (split_session_name_int item) as [pid Hpid].
  destruct (split_session_name (Some item)) as [p nodepart]. simpl in Hpid. subst p.
  cbn [pid_ne format_screen_name]. destruct (pid =? -1)%Z; [done|].
  cbn [negb mbind outcome_bind]. destruct (Py.truthy nodename); [|done].
  destruct (Py.startswith nodepart "_"); [|done].
  by destruct (String.eqb nodename (session_name2node_name nodepart)).
Qed.

Lemma active_screens_lines_fold (nodename : string) (result : gmap string string)
    (splits : list string) :
  active_screens_lines nodename result splits
  = Ok (foldl (add_entry nodename) result splits).
Proof.
  revert result. induction splits as [|item splits IH]; intros result; [done|].
  cbn [active_screens_lines foldl]. rewrite active_screens_item_entry.
  cbn [mbind outcome_bind]. apply IH.
Qed.

Lemma line_entry_spec (nodename item screen_name name : string) :
  line_entry nodename item = Some (screen_name, name)
  ↔ ∃ pid nodepart,
      session_line item pid nodepart
      ∧ screen_name = Py.format_d pid +:+ "." +:+ nodepart
      ∧ if Py.truthy nodename
        then Py.startswith nodepart "_" = true
             ∧ session_name2node_name nodepart = nodename ∧ name = nodename
        else name = session_name2node_name nodepart.
Proof.
  unfold line_entry, session_line.
  destruct (split_session_name (Some item)) as [[pid|str] nodepart].
  2: { split; [done|]. by intros (? & ? & [[=] _] & _). }
  destruct (Z.eqb_spec pid (-1)) as [->|Hpid].
  { split; [done|]. by intros (? & ? & [[= <- <-] ?] & _). }
  destruct (Py.truthy nodename).
  2: { split.
       - intros [= <- <-]. by exists pid, nodepart.
       - by intros (? & ? & [[= <- <-] _] & -> & ->). }
  destruct (Py.startswith nodepart "_") eqn:Hst; cbn [andb].
  2: { split; [done|]. intros (? & ? & [[= <- <-] _] & _ & ? & _). congruence. }
  destruct (String.eqb_spec nodename (session_name2node_name nodepart)) as [Hn|Hn].
  - split.
    + intros [= <- <-]. by exists pid, nodepart.
    + by intros (? & ? & [[= <- <-] _] & -> & _ & _ & ->).
  - split; [done|]. intros (? & ? & [[= <- <-] _] & _ & _ & ? & _). congruence.
Qed.

(** The decimal form of an integer has no dot, so the name of a screen
    determines its session. *)
Lemma string_of_uint_no_dot (d : Decimal.uint) :
  Py.contains "." (NilEmpty.string_of_uint d) = false.
Proof. induction d; done. Qed.

Lemma format_d_no_dot (z : Z) : Py.contains "." (Py.format_d z) = false.
Proof.
  unfold Py.format_d, NilZero.string_of_int, NilZero.string_of_uint.
  destruct (Z.to_int z) as [d|d]; destruct d; try done;
    apply (string_of_uint_no_dot (_ d)) || apply (string_of_uint_no_dot d).
Qed.

Lemma append_dot_inj (a b x y : string) :
  Py.contains "." a = false → Py.contains "." b = false →
  a +:+ String "." x = b +:+ String "." y → a = b ∧ x = y.
Proof.
  revert b. induction a as [|c a IH]; intros [|d b]; cbn [Py.contains];
    rewrite ?append_cons, ?append_nil_l.
  - by intros _ _ [= ->].
  - intros _ [Hd _]%orb_false_iff [= <- _]. by rewrite Ascii.eqb_refl in Hd.
  - intros [Hc _]%orb_false_iff _ [= -> _]. by rewrite Ascii.eqb_refl in Hc.
  - intros [_ Ha]%orb_false_iff [_ Hb]%orb_false_iff [= -> H].
    by destruct (IH _ Ha Hb H) as [-> ->].
Qed.

Lemma screen_name_inj (pid pid' : Z) (nodepart nodepart' : string) :
  Py.format_d pid +:+ "." +:+ nodepart = Py.format_d pid' +:+ "." +:+ nodepart' →
  nodepart = nodepart'.
Proof.
  intros H. by apply (append_dot_inj _ _ _ _ (format_d_no_dot _) (format_d_no_dot _)) in H as [_ ?].
Qed.

(** Two lines that give the same screen name give the same node name. *)
Lemma line_entry_key (nodename item item' screen_name name name' : string) :
  line_entry nodename item = Some (screen_name, name) →
  line_entry nodename item' = Some (screen_name, name') →
  name = name'.
Proof.
  rewrite !line_entry_spec.
  intros (pid & np & _ & -> & H) (pid' & np' & _ & Hk & H').
  apply screen_name_inj in Hk as <-.
  destruct (Py.truthy nodename).
  - destruct H as (_ & _ & ->). by destruct H' as (_ & _ & ->).
  - by rewrite H, H'.
Qed.

Lemma foldl_add_entry_snoc (nodename : string) (result : gmap string string)
    (splits : list string) (item : string) :
  foldl (add_entry nodename) result (splits ++ [item])
  = add_entry nodename (foldl (add_entry nodename) result splits) item.
Proof. by rewrite foldl_app. Qed.

(** The result of the loop holds exactly the entries of the lines. *)
Lemma foldl_add_entry_lookup (nodename : string) (splits : list string)
    (screen_name name : string) :
  foldl (add_entry nodename) ∅ splits !! screen_name = Some name
  ↔ ∃ item, item ∈ splits ∧ line_entry nodename item = Some (screen_name, name).
Proof.
  induction splits as [|item splits IH] using rev_ind.
  - cbn [foldl]. rewrite lookup_empty. split; [done|].
    by intros (? & ?%elem_of_nil & _).
  - rewrite foldl_add_entry_snoc. unfold add_entry at 1.
    destruct (line_entry nodename item) as [[k v]|] eqn:Hitem.
    + rewrite lookup_insert. case_decide as Hk.
      * subst k. split.
        -- intros [= ->]. exists item. split; [|done].
           apply elem_of_app. right. by apply list_elem_of_singleton.
        -- intros (item' & _ & H'). f_equal. by eapply line_entry_key.
      * rewrite IH. split.
        -- intros (item' & Hin & H'). exists item'. split; [|done].
           apply elem_of_app. by left.
        -- intros (item' & [Hin| ->%list_elem_of_singleton]%elem_of_app & H').
           ++ by exists item'.
           ++ rewrite Hitem in H'. by injection H' as -> _.
    + rewrite IH. split.
      * intros (item' & Hin & H'). exists item'. split; [|done].
        apply elem_of_app. by left.
      * intros (item' & [Hin| ->%list_elem_of_singleton]%elem_of_app & H').
        -- by exists item'.
        -- by rewrite Hitem in H'.
Qed.

Lemma get_active_screens_lines (output nodename : string) :
  get_active_screens output nodename
  = active_screens_lines nodename ∅ (Py.splitlines output).
Proof. unfold get_active_screens. by destruct output. Qed.

(** The loop over any list of lines ends without exception, and its
    result holds exactly the entries of the lines with a valid process
    id. *)
Lemma active_screens_lines_spec (splits : list string) (nodename : string) :
  ∃ result : gmap string string,
    active_screens_lines nodename ∅ splits = Ok result
    ∧ ∀ screen_name name : string,
        result !! screen_name = Some name
        ↔ ∃ item pid nodepart,
            item ∈ splits
            ∧ session_line item pid nodepart
            ∧ screen_name = Py.format_d pid +:+ "." +:+ nodepart
            ∧ if Py.truthy nodename
              then Py.startswith nodepart "_" = true
                   ∧ session_name2node_name nodepart = nodename
                   ∧ name = nodename
              else name = session_name2node_name nodepart.
Proof.
  eexists. split; [apply active_screens_lines_fold|].
  intros screen_name name. rewrite foldl_add_entry_lookup. split.
  - intros (item & Hin & (pid & nodepart & H)%line_entry_spec).
    by exists item, pid, nodepart.
  - intros (item & pid & nodepart & Hin & H). exists item. split; [done|].
    apply line_entry_spec. by exists pid, nodepart.
Qed.

(** C3. [get_active_screens] returns a dictionary. With a node name it
    holds exactly the screens of the lines with a valid process id whose
    session starts with the delimiter and decodes to that node name, each
    mapped to the node name; without one it holds every line with a valid
    process id, under the key made of the process id, a dot and the
    session, mapped to the decoded session. *)
Theorem get_active_screens_spec (output nodename : string) :
  ∃ result : gmap string string,
    get_active_screens output nodename = Ok result
    ∧ ∀ screen_name name : string,
        result !! screen_name = Some name
        ↔ ∃ item pid nodepart,
            item ∈ Py.splitlines output
            ∧ session_line item pid nodepart
            ∧ screen_name = Py.format_d pid +:+ "." +:+ nodepart
            ∧ if Py.truthy nodename
              then Py.startswith nodepart "_" = true
                   ∧ session_name2node_name nodepart = nodename
                   ∧ name = nodename
              else name = session_name2node_name nodepart.
Proof. rewrite get_active_screens_lines. apply active_screens_lines_spec. Qed.

Lemma get_active_screens_spec_witness :
  ∃ result : gmap string string,
    get_active_screens sample_registry "/a/b" = Ok result
    ∧ ∀ screen_name name : string,
        result !! screen_name = Some name
        ↔ ∃ item pid nodepart,
            item ∈ Py.splitlines sample_registry
            ∧ session_line item pid nodepart
            ∧ screen_name = Py.format_d pid +:+ "." +:+ nodepart
            ∧ Py.startswith nodepart "_" = true
              ∧ session_name2node_name nodepart = "/a/b"
              ∧ name = "/a/b".
Proof. apply (get_active_screens_spec sample_registry "/a/b"). Defined.

Example get_active_screens_of_node :
  get_active_screens sample_registry "/a/b" = Ok {[ "123._a_b" := "/a/b" ]}.
Proof. reflexivity. Qed.

Example get_active_screens_all :
  get_active_screens sample_registry ""
  = Ok {[ "123._a_b" := "/a/b"; "45._x" := "/x" ]}.
Proof. reflexivity. Qed.

Example get_active_screens_no_output (nodename : string) :
  get_active_screens "" nodename = Ok ∅.
Proof. reflexivity. Qed.

(** C10. The line [-1.x] is parsed to the process id -1 and the session
    [x]; as -1 is also the mark of the lines that are no session, no line
    that starts with [-1.] ever enters the result, whereas the line [1.x]
    does. *)
Theorem minus_one_line_dropped :
  split_session_name (Some "-1.x") = (PidInt (-1), "x")
  ∧ (∀ (nodename rest : string) (result : gmap string string),
       active_screens_item nodename result ("-1." +:+ rest) = Ok result)
  ∧ get_active_screens "-1.x" "" = Ok ∅
  ∧ get_active_screens "1.x" "" = Ok {[ "1.x" := "x" ]}.
Proof.
  split; [reflexivity|]. split; [|split; reflexivity].
  intros nodename rest result. rewrite active_screens_item_entry.
  unfold add_entry, line_entry.
  change ("-1." +:+ rest) with ("-1" +:+ "." +:+ rest).
  by rewrite (split_session_name_trimmed "-1" rest (-1)).
Qed.

(** ** Removing files *)

Lemma isfile_lookup (fs fs' : gmap string entry) (path : string) :
  fs' !! path = fs !! path → isfile fs' path = isfile fs path.
Proof. unfold isfile. by intros ->. Qed.

Lemma remove_if_file_lookup (fs fs' : gmap string entry) (path : string) :
  remove_if_file fs path = Ok fs' →
  ∀ q, fs' !! q
       = if decide (q = path) then (if isfile fs q then None else fs !! q)
         else fs !! q.
Proof.
  unfold remove_if_file, remove. intros H q.
  destruct (isfile fs path) eqn:Hf.
  - unfold isfile in Hf. destruct (fs !! path) as [[[]|]|] eqn:Hp; try done.
    injection H as <-. case_decide as Hq.
    + subst q. unfold isfile. by rewrite Hp, lookup_delete_eq.
    + by rewrite lookup_delete_ne.
  - injection H as <-. case_decide as Hq; [|done]. subst q. by rewrite Hf.
Qed.

Lemma remove_if_file_gone (fs fs' : gmap string entry) (path : string) :
  remove_if_file fs path = Ok fs' → isfile fs' path = false.
Proof.
  intros H. unfold isfile at 1. rewrite (remove_if_file_lookup _ _ _ H).
  rewrite decide_True by done. unfold isfile.
  by destruct (fs !! path) as [[]|].
Qed.

Lemma remove_files_lookup (paths : list string) (fs fs' : gmap string entry) :
  remove_files fs paths = Ok fs' →
  ∀ q, fs' !! q
       = if decide (q ∈ paths) then (if isfile fs q then None else fs !! q)
         else fs !! q.
Proof.
  revert fs. induction paths as [|path paths IH]; intros fs.
  - intros [= <-] q. rewrite decide_False; [done|]. apply not_elem_of_nil.
  - cbn [remove_files]. destruct (remove_if_file fs path) as [fs1|] eqn:H1; [|done].
    cbn [mbind outcome_bind]. intros H q. rewrite (IH _ H q).
    pose proof (remove_if_file_lookup _ _ _ H1 q) as Hq.
    pose proof (remove_if_file_gone _ _ _ H1) as Hg.
    destruct (decide (q = path)) as [->|Hne].
    + rewrite (decide_True (P := path ∈ path :: paths)) by apply list_elem_of_here.
      rewrite Hg, Hq. by destruct (decide (path ∈ paths)).
    + rewrite (isfile_lookup _ _ _ Hq), Hq.
      destruct (decide (q ∈ paths)) as [Hin|Hin].
      * rewrite decide_True; [done|]. by apply list_elem_of_further.
      * rewrite decide_False; [done|]. by intros [?|?]%elem_of_cons.
Qed.

(** Paths that name no file are passed over. *)
Lemma remove_files_skip (paths : list string) (fs : gmap string entry) :
  (∀ path, path ∈ paths → isfile fs path = false) →
  remove_files fs paths = Ok fs.
Proof.
  induction paths as [|path paths IH]; [done|]. intros H.
  cbn [remove_files]. unfold remove_if_file at 1.
  rewrite (H path) by apply list_elem_of_here. cbn [mbind outcome_bind].
  apply IH. intros p Hp. apply H. by apply list_elem_of_further.
Qed.

(** When the system lets every file among the paths go, all are removed. *)
Lemma remove_files_removable (paths : list string) (fs : gmap string entry) :
  (∀ path, path ∈ paths → fs !! path ≠ Some (RegularFile false)) →
  ∃ fs', remove_files fs paths = Ok fs'.
Proof.
  revert fs. induction paths as [|path paths IH]; intros fs H; [by eexists|].
  cbn [remove_files].
  assert (∃ fs1, remove_if_file fs path = Ok fs1) as [fs1 H1].
  { unfold remove_if_file, isfile, remove.
    pose proof (H path (list_elem_of_here _ _)) as Hp.
    destruct (fs !! path) as [[[]|]|]; first [by destruct Hp | by eexists]. }
  rewrite H1. cbn [mbind outcome_bind]. apply IH. intros p Hp.
  rewrite (remove_if_file_lookup _ _ _ H1 p).
  case_decide; [|by apply H, list_elem_of_further].
  destruct (isfile fs p); [done|]. by apply H, list_elem_of_further.
Qed.

(** ** Derived files *)

Section FileFacts.

Variable LOG_PATH : string.

(** C6. The three file names of a node are the log directory, the session
    name of the node and the suffix; a given session goes before the node;
    without session and node the name is [unknown]. The functions are
    functions of their arguments and of the log directory alone. *)
Theorem file_names (session node : string) (other : option string) :
  (get_logfile LOG_PATH None (Some node)
     = LOG_PATH +:+ create_session_name (Some node) +:+ ".log"
   ∧ get_cfgfile LOG_PATH None (Some node)
     = LOG_PATH +:+ create_session_name (Some node) +:+ ".conf"
   ∧ get_pidfile LOG_PATH None (Some node)
     = LOG_PATH +:+ create_session_name (Some node) +:+ ".pid")
  ∧ (get_logfile LOG_PATH (Some session) other = LOG_PATH +:+ session +:+ ".log"
     ∧ get_cfgfile LOG_PATH (Some session) other = LOG_PATH +:+ session +:+ ".conf"
     ∧ get_pidfile LOG_PATH (Some session) other = LOG_PATH +:+ session +:+ ".pid")
  ∧ (get_logfile LOG_PATH None None = LOG_PATH +:+ "unknown.log"
     ∧ get_cfgfile LOG_PATH None None = LOG_PATH +:+ "unknown.conf"
     ∧ get_pidfile LOG_PATH None None = LOG_PATH +:+ "unknown.pid").
Proof. by repeat split. Qed.

(** ** The configuration writer *)

Lemma _append_env_forwarded (f : file) (name : string) (env environ : gmap string string) :
  (let '(f1, handled) := _append_env f name env in
   if handled then f1 else fst (_append_env f1 name environ))
  = f ++ forwarded env environ name.
Proof.
  unfold _append_env, forwarded, write.
  destruct (env !! name) as [[|c v]|]; cbn [Py.truthy fst];
    destruct (environ !! name) as [[|c' v']|]; cbn [Py.truthy fst];
    by rewrite ?app_nil_r.
Qed.

Lemma append_envs_forwarded (f : file) (addkeys : list string)
    (env environ : gmap string string) :
  append_envs f addkeys env environ = f ++ flat_map (forwarded env environ) addkeys.
Proof.
  revert f. induction addkeys as [|key addkeys IH]; intros f.
  - by rewrite app_nil_r.
  - cbn [append_envs flat_map].
    pose proof (_append_env_forwarded f key env environ) as H.
    destruct (_append_env f key env) as [f1 handled]. rewrite H, IH.
    by rewrite app_assoc.
Qed.

(** C7. The configuration file holds its three fixed lines and then, name
    by name in the order of the names to forward, the lines owed to each
    name: the [setenv] line with the value of the caller when the caller
    has a non-empty one; else the one with the value of the process
    environment when that is non-empty; no line for a name that has no
    non-empty value in either. *)
Theorem get_cmd_setenv (environ env : gmap string string) (node : option string)
    (keys : list string) :
  snd (fst (get_cmd LOG_PATH environ node env keys))
  = [ "logfile " +:+ get_logfile LOG_PATH None node +:+ newline;
      "logfile flush 0" +:+ newline;
      "defscrollback 10000" +:+ newline ]
    ++ flat_map (forwarded env environ) (keys ++ builtin_keys)
  ∧ ∀ name : string,
      (∀ value, env !! name = Some value → value ≠ "" →
         forwarded env environ name = [setenv_line name value])
      ∧ (∀ value,
           env !! name = None ∨ env !! name = Some "" →
           environ !! name = Some value → value ≠ "" →
           forwarded env environ name = [setenv_line name value])
      ∧ (env !! name = None ∨ env !! name = Some "" →
         environ !! name = None ∨ environ !! name = Some "" →
         forwarded env environ name = []).
Proof.
  split.
  - unfold get_cmd. cbn [fst snd]. by rewrite append_envs_forwarded.
  - intros name. unfold forwarded. repeat split.
    + intros value -> Hv. by destruct value.
    + intros value [-> | ->] -> Hv; by destruct value.
    + by intros [-> | ->] [-> | ->].
Qed.

(** ** The log cleaner *)

Lemma delete_log_remove_files (fs : gmap string entry) (nodename : option string) :
  delete_log LOG_PATH fs nodename = remove_files fs (log_files LOG_PATH nodename).
Proof.
  unfold delete_log, log_files. cbn [remove_files].
  destruct (remove_if_file fs _) as [fs1|]; [|done]. cbn [mbind outcome_bind].
  destruct (remove_if_file fs1 _) as [fs2|]; [|done]. cbn [mbind outcome_bind].
  destruct (remove_if_file fs2 _) as [fs3|]; [|done]. cbn [mbind outcome_bind].
  by destruct (remove_if_file fs3 _).
Qed.

(** C9. When [delete_log] has returned, calling it again for the same
    node returns as well and changes nothing: the four files of the node
    that were there are gone, and what names no file is passed over. The
    first call removes the files among the four paths and nothing else. *)
Theorem delete_log_twice (fs fs' : gmap string entry) (nodename : option string) :
  delete_log LOG_PATH fs nodename = Ok fs' →
  delete_log LOG_PATH fs' nodename = Ok fs'
  ∧ (∀ path, path ∈ log_files LOG_PATH nodename →
       isfile fs path = true → fs' !! path = None)
  ∧ (∀ path, path ∈ log_files LOG_PATH nodename →
       isfile fs path = false → fs' !! path = fs !! path)
  ∧ (∀ path, path ∉ log_files LOG_PATH nodename → fs' !! path = fs !! path).
Proof.
  rewrite !delete_log_remove_files. intros H.
  pose proof (remove_files_lookup _ _ _ H) as Hl. repeat split.
  - apply remove_files_skip. intros path Hin. unfold isfile.
    rewrite Hl, decide_True by done. unfold isfile.
    by destruct (fs !! path) as [[]|].
  - intros path Hin Hf. by rewrite Hl, decide_True, Hf.
  - intros path Hin Hf. by rewrite Hl, decide_True, Hf.
  - intros path Hin. by rewrite Hl, decide_False.
Qed.

(** A node without files: [delete_log] returns and changes nothing. *)
Lemma delete_log_missing (fs : gmap string entry) (nodename : option string) :
  (∀ path, path ∈ log_files LOG_PATH nodename → isfile fs path = false) →
  delete_log LOG_PATH fs nodename = Ok fs.
Proof. rewrite delete_log_remove_files. apply remove_files_skip. Qed.

(** [delete_log] returns whenever the system lets the files go. *)
Lemma delete_log_returns (fs : gmap string entry) (nodename : option string) :
  (∀ path, path ∈ log_files LOG_PATH nodename →
     fs !! path ≠ Some (RegularFile false)) →
  ∃ fs', delete_log LOG_PATH fs nodename = Ok fs'.
Proof. rewrite delete_log_remove_files. apply remove_files_removable. Qed.

End FileFacts.

Lemma get_cmd_setenv_witness :
  forwarded {[ "ROS_NAMESPACE" := "/ns" ]} {[ "ROS_NAMESPACE" := "/env" ]} "ROS_NAMESPACE"
  = [setenv_line "ROS_NAMESPACE" "/ns"]
  ∧ forwarded {[ "ROS_HOSTNAME" := "" ]} {[ "ROS_HOSTNAME" := "pc" ]} "ROS_HOSTNAME"
    = [setenv_line "ROS_HOSTNAME" "pc"]
  ∧ forwarded (∅ : gmap string string) {[ "RESPAWN_MAX" := "" ]} "RESPAWN_MAX" = [].
Proof.
  split; [|split].
  - apply (proj1 (proj2 (get_cmd_setenv "/log/" {[ "ROS_NAMESPACE" := "/env" ]}
                           {[ "ROS_NAMESPACE" := "/ns" ]} None []) "ROS_NAMESPACE"));
      [reflexivity|discriminate].
  - apply (proj1 (proj2 (proj2 (get_cmd_setenv "/log/" {[ "ROS_HOSTNAME" := "pc" ]}
                           {[ "ROS_HOSTNAME" := "" ]} None []) "ROS_HOSTNAME")));
      [right; reflexivity|reflexivity|discriminate].
  - apply (proj2 (proj2 (proj2 (get_cmd_setenv "/log/" {[ "RESPAWN_MAX" := "" ]}
                           ∅ None []) "RESPAWN_MAX")));
      [left; reflexivity|right; reflexivity].
Defined.

Lemma delete_log_twice_witness :
  delete_log "/log/"
    {[ "/log/_a.log" := RegularFile true; "/log/a.log" := RegularFile true;
       "/log/_a.pid" := Directory; "/log/_b.log" := RegularFile false ]}
    (Some "/a")
  = Ok {[ "/log/_a.pid" := Directory; "/log/_b.log" := RegularFile false ]}
  ∧ delete_log "/log/"
      {[ "/log/_a.pid" := Directory; "/log/_b.log" := RegularFile false ]}
      (Some "/a")
    = Ok {[ "/log/_a.pid" := Directory; "/log/_b.log" := RegularFile false ]}.
Proof.
  split; [reflexivity|].
  apply (delete_log_twice "/log/"
           {[ "/log/_a.log" := RegularFile true; "/log/a.log" := RegularFile true;
              "/log/_a.pid" := Directory; "/log/_b.log" := RegularFile false ]}).
  reflexivity.
Defined.

(** ** More on the name codec *)

Lemma round_trip_only_if_witness :
  is_global "/ns/my_node" = true
  ∧ session_name2node_name (create_session_name (Some "/ns/my_node")) = "/ns/my_node"
  ∧ well_escaped "/ns/my_node" = true.
Proof.
  split; [reflexivity|]. split; [reflexivity|].
  apply (round_trip_only_if "/ns/my_node"); reflexivity.
Defined.

Lemma collapse_well_escaped (u : string) :
  Py.contains "_" u = false →
  well_escaped (Py.replace_from "//" "_" 0 u) = true.
Proof.
  enough (H : (Py.contains "_" u = false →
               well_escaped (Py.replace_from "//" "_" 0 u) = true)
              ∧ ∀ c, Py.contains "_" (String c u) = false →
                     well_escaped (Py.replace_from "//" "_" 0 (String c u)) = true)
    by apply H.
  induction u as [|d u [IH1 IH2]].
  - split; [done|]. intros c _. rewrite replace_from_cons, prefix_cons.
    change (String.prefix "/" "") with false. rewrite andb_false_r.
    cbn. by destruct (Ascii.eqb c "/").
  - split; [apply IH2|]. intros c Hc.
    cbn [Py.contains] in Hc. apply orb_false_iff in Hc as [Hc Hu].
    pose proof Hu as Hdu. cbn [Py.contains] in Hdu.
    apply orb_false_iff in Hdu as [Hd Hu'].
    rewrite replace_from_cons, !prefix_cons, prefix_nil, andb_true_r.
    destruct (Ascii.eqb "/" c) eqn:Ec; cbn [andb].
    + apply Ascii.eqb_eq in Ec as <-. destruct (Ascii.eqb "/" d) eqn:Ed.
      * change (String.length "//" - 1) with 1. rewrite replace_from_skip.
        rewrite append_cons, append_nil_l. cbn [well_escaped].
        by rewrite (IH1 Hu').
      * cbn [well_escaped]. rewrite Ascii.eqb_refl, (IH2 d Hu), andb_true_r.
        rewrite replace_from_cons, prefix_cons, Ed. cbn [andb].
        by rewrite !startswith_cons, Ed, Hd.
    + cbn [well_escaped]. by rewrite (Ascii.eqb_sym c "/"), Ec, (IH2 d Hu).
Qed.

(** X2. Whatever the session name, the decoded node name is well escaped:
    it has no slash that is directly followed by a slash or by an
    underscore. *)
Theorem session_name2node_name_well_escaped (session : string) :
  well_escaped (session_name2node_name session) = true.
Proof.
  rewrite session_name2node_name_subst. apply collapse_well_escaped.
  by apply contains_subst_char.
Qed.

(** X3. The encoder does not tell a slash followed by an underscore from
    an underscore followed by a slash: two different node names get the
    same session name. *)
Theorem create_session_name_collision (a b : string) :
  "/" +:+ a +:+ "/_" +:+ b ≠ "/" +:+ a +:+ "_/" +:+ b
  ∧ create_session_name (Some ("/" +:+ a +:+ "/_" +:+ b))
    = create_session_name (Some ("/" +:+ a +:+ "_/" +:+ b)).
Proof.
  split.
  - intros H. apply (inj (String.app "/")), (inj (String.app a)) in H. discriminate H.
  - rewrite !create_session_name_subst, !absolute_global by done.
    by rewrite !subst_char_app.
Qed.

Lemma subst_char_absent (c : ascii) (new s : string) :
  Py.contains c s = false → subst_char c new s = s.
Proof.
  induction s as [|d s IH]; [done|]. cbn [Py.contains].
  intros [Hd Hs]%orb_false_iff. rewrite subst_char_cons.
  by rewrite (Ascii.eqb_sym d c), Hd, (IH Hs).
Qed.

(** Turning the underscores into slashes and back gives a string without
    slash back. *)
Lemma subst_char_back (t : string) :
  Py.contains "/" t = false →
  subst_char "/" "_" (subst_char "_" "/" t) = t.
Proof.
  induction t as [|c t IH]; [done|]. cbn [Py.contains].
  intros [Hc Ht]%orb_false_iff. rewrite subst_char_cons.
  destruct (Ascii.eqb c "_") eqn:Ec.
  - apply Ascii.eqb_eq in Ec as ->. rewrite subst_char_app, (IH Ht). reflexivity.
  - by rewrite subst_char_cons, (Ascii.eqb_sym c "/"), Hc, (IH Ht).
Qed.

(** Encoding what the last pass of the decoder gives writes every slash
    of its input as an underscore. *)
Lemma encode_collapse (u : string) :
  Py.contains "_" u = false →
  subst_char "/" "_" (subst_char "_" "__" (Py.replace_from "//" "_" 0 u))
  = subst_char "/" "_" u.
Proof.
  enough (H : (Py.contains "_" u = false →
               subst_char "/" "_" (subst_char "_" "__" (Py.replace_from "//" "_" 0 u))
               = subst_char "/" "_" u)
              ∧ ∀ c, Py.contains "_" (String c u) = false →
                     subst_char "/" "_"
                       (subst_char "_" "__" (Py.replace_from "//" "_" 0 (String c u)))
                     = subst_char "/" "_" (String c u))
    by apply H.
  induction u as [|d u [IH1 IH2]].
  - split; [done|]. intros c [Hc _]%orb_false_iff.
    rewrite replace_from_cons, prefix_cons.
    change (String.prefix "/" "") with false. rewrite andb_false_r.
    rewrite (subst_char_cons "_"), (Ascii.eqb_sym c "_"), Hc. reflexivity.
  - split; [apply IH2|]. intros c Hc.
    cbn [Py.contains] in Hc. apply orb_false_iff in Hc as [Hc Hu].
    pose proof Hu as Hdu. cbn [Py.contains] in Hdu.
    apply orb_false_iff in Hdu as [Hd Hu'].
    rewrite replace_from_cons, !prefix_cons, prefix_nil, andb_true_r.
    destruct (Ascii.eqb "/" c && Ascii.eqb "/" d) eqn:E.
    + apply andb_true_iff in E as [<-%Ascii.eqb_eq <-%Ascii.eqb_eq].
      change (String.length "//" - 1) with 1. rewrite replace_from_skip.
      rewrite !subst_char_app, (IH1 Hu'). reflexivity.
    + rewrite (subst_char_cons "_" _ c), (Ascii.eqb_sym c "_"), Hc.
      rewrite !(subst_char_cons "/" _ c). by rewrite (IH2 d Hu).
Qed.

Lemma decode_global (t : string) :
  Py.contains "/" t = false →
  Py.startswith t "_" = true → Py.startswith t "__" = false →
  is_global (session_name2node_name t) = true.
Proof.
  intros Hs H1 H2. rewrite session_name2node_name_subst. unfold Py.replace.
  destruct t as [|c t]; [done|]. rewrite startswith_cons in H1.
  apply Ascii.eqb_eq in H1 as <-. unfold Py.startswith in H2.
  rewrite prefix_cons, Ascii.eqb_refl in H2. cbn [andb] in H2.
  cbn [Py.contains] in Hs. apply orb_false_iff in Hs as [_ Hs].
  cbn [subst_char]. rewrite Ascii.eqb_refl, append_cons, append_nil_l.
  rewrite replace_from_cons, prefix_cons, Ascii.eqb_refl. cbn [andb].
  destruct t as [|d t]; [done|].
  rewrite prefix_cons, prefix_nil, andb_true_r in H2.
  cbn [Py.contains] in Hs. apply orb_false_iff in Hs as [Hd _].
  rewrite subst_char_cons, (Ascii.eqb_sym d "_"), H2, prefix_cons, Hd. done.
Qed.

(** X4. A session name without slash that starts with exactly one
    underscore is the session name of the node name it decodes to: on
    these session names the encoder undoes the decoder. *)
Theorem create_session_name_of_decoded (session : string) :
  Py.contains "/" session = false →
  Py.startswith session "_" = true → Py.startswith session "__" = false →
  create_session_name (Some (session_name2node_name session)) = session.
Proof.
  intros Hs H1 H2. rewrite create_session_name_subst.
  rewrite absolute_global by by apply decode_global.
  rewrite session_name2node_name_subst. unfold Py.replace.
  rewrite encode_collapse by by apply contains_subst_char.
  by apply subst_char_back.
Qed.

Lemma create_session_name_of_decoded_witness :
  Py.contains "/" "_ns_my__node" = false
  ∧ create_session_name (Some (session_name2node_name "_ns_my__node")) = "_ns_my__node".
Proof.
  split; [reflexivity|].
  apply (create_session_name_of_decoded "_ns_my__node"); reflexivity.
Defined.

(** X5. The first of the three passes of the decoder does not matter:
    decoding turns every underscore into a slash and then every pair of
    slashes, from the left, into an underscore. *)
Theorem session_name2node_name_two_passes (session : string) :
  session_name2node_name session
  = Py.replace (Py.replace session "_" "/") "//" "_".
Proof. by rewrite session_name2node_name_subst, (replace_char "_" "/"). Qed.

Lemma encode_slash (s : string) :
  subst_char "/" "_" (subst_char "_" "__" (String "/" s))
  = String "_" (subst_char "/" "_" (subst_char "_" "__" s)).
Proof. reflexivity. Qed.

(** X6. The session name of every node name that is not private starts
    with the delimiter, the mark by which [get_active_screens] tells the
    sessions of nodes. *)
Theorem create_session_name_starts_with_delimiter (name : string) :
  is_private name = false →
  Py.startswith (create_session_name (Some name)) "_" = true.
Proof.
  intros Hp. rewrite create_session_name_subst. unfold absolute. rewrite Hp, orb_false_r.
  destruct (is_global name) eqn:Hg.
  - destruct name as [|c name]; [done|]. cbn [is_global] in Hg.
    apply Ascii.eqb_eq in Hg as ->. by rewrite encode_slash, startswith_cons.
  - by rewrite append_cons, append_nil_l, encode_slash, startswith_cons.
Qed.

Lemma create_session_name_starts_with_delimiter_witness :
  is_private "node" = false
  ∧ Py.startswith (create_session_name (Some "node")) "_" = true.
Proof.
  split; [reflexivity|].
  apply (create_session_name_starts_with_delimiter "node"). reflexivity.
Defined.

(** ** More on the lines of the registry *)

Lemma lstrip_head (s : string) (c : ascii) (t : string) :
  Py.lstrip s = String c t → Py.isspace c = false.
Proof.
  induction s as [|d s IH]; [done|]. cbn [Py.lstrip].
  destruct (Py.isspace d) eqn:Hd; [done|]. by intros [= <- _].
Qed.

Lemma lstrip_fixed (s : string) :
  (∀ c t, s = String c t → Py.isspace c = false) → Py.lstrip s = s.
Proof.
  destruct s as [|c s]; [done|]. intros H. cbn [Py.lstrip].
  by rewrite (H c s eq_refl).
Qed.

Lemma rstrip_head (s : string) (c : ascii) (t : string) :
  Py.rstrip s = String c t → ∃ t', s = String c t'.
Proof.
  destruct s as [|d s]; [done|]. cbn [Py.rstrip].
  destruct (Py.rstrip s).
  - destruct (Py.isspace d); [done|]. intros [= <- _]. by eexists.
  - intros [= <- _]. by eexists.
Qed.

Lemma rstrip_idem (s : string) : Py.rstrip (Py.rstrip s) = Py.rstrip s.
Proof.
  induction s as [|c s IH]; [done|]. cbn [Py.rstrip].
  destruct (Py.rstrip s) as [|d r] eqn:Hr.
  - destruct (Py.isspace c) eqn:Hc; [done|]. cbn [Py.rstrip]. by rewrite Hc.
  - cbn [Py.rstrip] in IH |- *. by rewrite IH.
Qed.

Lemma strip_idem (s : string) : Py.strip (Py.strip s) = Py.strip s.
Proof.
  unfold Py.strip. rewrite (lstrip_fixed (Py.rstrip (Py.lstrip s))).
  - apply rstrip_idem.
  - intros c t [t' H]%rstrip_head. by apply lstrip_head in H.
Qed.

Lemma contains_lstrip (c : ascii) (s : string) :
  Py.contains c s = false → Py.contains c (Py.lstrip s) = false.
Proof.
  induction s as [|d s IH]; [done|]. cbn [Py.lstrip].
  destruct (Py.isspace d); [|done]. cbn [Py.contains].
  intros [_ H]%orb_false_iff. by apply IH.
Qed.

Lemma contains_rstrip (c : ascii) (s : string) :
  Py.contains c s = false → Py.contains c (Py.rstrip s) = false.
Proof.
  induction s as [|d s IH]; [done|]. cbn [Py.contains Py.rstrip].
  intros [Hd Hs]%orb_false_iff. specialize (IH Hs).
  destruct (Py.rstrip s).
  - destruct (Py.isspace d); [done|]. cbn [Py.contains]. by rewrite Hd.
  - cbn [Py.contains] in IH |- *. by rewrite Hd, IH.
Qed.

Lemma contains_strip (c : ascii) (s : string) :
  Py.contains c s = false → Py.contains c (Py.strip s) = false.
Proof. intros H. by apply contains_rstrip, contains_lstrip. Qed.

Lemma contains_before (c : ascii) (s : string) :
  Py.contains c (before c s) = false.
Proof.
  induction s as [|d s IH]; [done|]. cbn [before].
  destruct (Ascii.eqb d c) eqn:Hd; [done|]. cbn [Py.contains].
  by rewrite (Ascii.eqb_sym c d), Hd, IH.
Qed.

Lemma before_absent (c : ascii) (s : string) :
  Py.contains c s = false → before c s = s.
Proof.
  induction s as [|d s IH]; [done|]. cbn [Py.contains before].
  intros [Hd Hs]%orb_false_iff. by rewrite (Ascii.eqb_sym d c), Hd, (IH Hs).
Qed.

Lemma before_append (c : ascii) (s t : string) :
  Py.contains c s = false → before c (s +:+ String c t) = s.
Proof.
  induction s as [|d s IH].
  - intros _. rewrite append_nil_l. cbn [before]. by rewrite Ascii.eqb_refl.
  - cbn [Py.contains]. intros [Hd Hs]%orb_false_iff.
    rewrite append_cons. cbn [before]. by rewrite (Ascii.eqb_sym d c), Hd, (IH Hs).
Qed.

(** X7. The session that [split_session_name] returns has no tab and no
    white space at its ends, whatever the input. *)
Theorem split_session_name_fragment (session : option string) :
  Py.contains "009" (snd (split_session_name session)) = false
  ∧ Py.strip (snd (split_session_name session)) = snd (split_session_name session).
Proof.
  destruct session as [s|]; [|done]. unfold split_session_name.
  destruct (Py.split "." (Some 1%nat) s) as [|p [|r [|? ?]]]; try done.
  destruct (Py.int (Py.strip p)); [|done].
  destruct (split_head "009" r) as [l ->]. cbn [snd]. split.
  - apply contains_strip, contains_before.
  - apply strip_idem.
Qed.

(** The decimal form of an integer is read back by [int]. *)
Lemma digits_value_of_uint_acc (d : Decimal.uint) (acc : positive) :
  Py.digits_value (Zpos acc) (NilEmpty.string_of_uint d)
  = Some (Zpos (Pos.of_uint_acc d acc)).
Proof.
  revert acc. induction d; intros acc; [done|..];
    cbn [NilEmpty.string_of_uint Py.digits_value Pos.of_uint_acc];
    rewrite <- IHd; change (Py.isdigit _) with true; cbv iota;
    f_equal;
    match goal with
    | |- context [nat_of_ascii ?c] =>
        let v := eval vm_compute in (Z.of_nat (nat_of_ascii c)) in
        change (Z.of_nat (nat_of_ascii c)) with v
    end; lia.
Qed.

Lemma digits_value_of_uint (d : Decimal.uint) :
  Py.digits_value 0 (NilEmpty.string_of_uint d) = Some (Z.of_N (Pos.of_uint d)).
Proof.
  induction d; [done|..];
    cbn [NilEmpty.string_of_uint Py.digits_value Pos.of_uint];
    change (Py.isdigit _) with true; cbv iota;
    first [exact IHd | apply digits_value_of_uint_acc].
Qed.

Lemma all_digits_of_uint (d : Decimal.uint) :
  all_digits (NilEmpty.string_of_uint d) = true.
Proof. induction d; done. Qed.

Lemma int_digits (s : string) :
  s ≠ "" → all_digits s = true → Py.int s = Py.digits_value 0 s.
Proof.
  intros Hne Hs. rewrite (int_all_digits _ Hne Hs), (digits_value_all_digits _ _ Hs).
  f_equal; lia.
Qed.

Lemma strip_minus_digits (s : string) :
  s ≠ "" → all_digits s = true → Py.strip (String "-" s) = String "-" s.
Proof.
  intros Hne Hs. unfold Py.strip. cbn [Py.lstrip].
  change (Py.isspace "-") with false. cbv iota. cbn [Py.rstrip].
  rewrite (all_digits_rstrip _ Hs). by destruct s.
Qed.

Lemma int_minus_digits (s : string) :
  s ≠ "" → all_digits s = true →
  Py.int (String "-" s) = Z.opp <$> Py.digits_value 0 s.
Proof.
  intros Hne Hs. unfold Py.int. rewrite (strip_minus_digits _ Hne Hs).
  by destruct s.
Qed.

Lemma string_of_uint_nonempty (d : Decimal.uint) :
  d ≠ Nil → NilEmpty.string_of_uint d ≠ "".
Proof. by destruct d. Qed.

Lemma string_of_uint_nonnil (d : Decimal.uint) :
  d ≠ Nil → NilZero.string_of_uint d = NilEmpty.string_of_uint d.
Proof. by destruct d. Qed.

Lemma int_format_d (z : Z) : Py.int (Py.format_d z) = Some z.
Proof.
  unfold Py.format_d. destruct z as [|p|p]; [done|..];
    cbn [Z.to_int NilZero.string_of_int];
    pose proof (Unsigned.to_uint_nonnil p) as Hn;
    rewrite (string_of_uint_nonnil _ Hn).
  - rewrite int_digits
      by first [by apply string_of_uint_nonempty | apply all_digits_of_uint].
    by rewrite digits_value_of_uint, Unsigned.of_to.
  - rewrite int_minus_digits
      by first [by apply string_of_uint_nonempty | apply all_digits_of_uint].
    by rewrite digits_value_of_uint, Unsigned.of_to.
Qed.

Lemma strip_format_d (z : Z) : Py.strip (Py.format_d z) = Py.format_d z.
Proof.
  unfold Py.format_d. destruct z as [|p|p]; [done|..];
    cbn [Z.to_int NilZero.string_of_int];
    pose proof (Unsigned.to_uint_nonnil p) as Hn;
    rewrite (string_of_uint_nonnil _ Hn).
  - apply all_digits_strip, all_digits_of_uint.
  - apply strip_minus_digits;
      first [by apply string_of_uint_nonempty | apply all_digits_of_uint].
Qed.

(** X8. A screen name written from a process id and a session is split
    into the same two again, for every session without tab and without
    white space at its ends. *)
Theorem split_session_name_of_screen_name (pid : Z) (nodepart : string) :
  Py.contains "009" nodepart = false → Py.strip nodepart = nodepart →
  split_session_name (Some (Py.format_d pid +:+ "." +:+ nodepart))
  = (PidInt pid, nodepart).
Proof.
  intros Ht Hs. rewrite split_session_name_dot by apply format_d_no_dot.
  by rewrite strip_format_d, int_format_d, (before_absent _ _ Ht), Hs.
Qed.

Lemma split_session_name_of_screen_name_witness :
  Py.contains "009" "_ns_node" = false ∧ Py.strip "_ns_node" = "_ns_node"
  ∧ split_session_name (Some (Py.format_d (-20417) +:+ "." +:+ "_ns_node"))
    = (PidInt (-20417), "_ns_node").
Proof.
  split; [reflexivity|]. split; [reflexivity|].
  apply (split_session_name_of_screen_name (-20417) "_ns_node"); reflexivity.
Defined.

(** ** More on the active screens *)

Lemma fragment_normal (item : string) (pid : Z) (nodepart : string) :
  split_session_name (Some item) = (PidInt pid, nodepart) →
  Py.contains "009" nodepart = false ∧ Py.strip nodepart = nodepart.
Proof.
  unfold split_session_name.
  destruct (Py.split "." (Some 1%nat) item) as [|p [|r [|? ?]]];
    try by intros [= <- <-].
  destruct (Py.int (Py.strip p)); [|by intros [= <- <-]].
  destruct (split_head "009" r) as [l ->]. intros [= <- <-]. split.
  - apply contains_strip, contains_before.
  - apply strip_idem.
Qed.

Lemma screen_name_split (pid : Z) (nodepart : string) :
  Py.contains "009" nodepart = false → Py.strip nodepart = nodepart →
  split_session_name (Some (Py.format_d pid +:+ "." +:+ nodepart))
  = (PidInt pid, nodepart).
Proof.
  intros Ht Hs. rewrite split_session_name_dot by apply format_d_no_dot.
  by rewrite strip_format_d, int_format_d, (before_absent _ _ Ht), Hs.
Qed.

Lemma line_entry_decoded (nodename item screen_name name : string) :
  line_entry nodename item = Some (screen_name, name) →
  ∃ pid nodepart,
    pid ≠ (-1)%Z
    ∧ split_session_name (Some screen_name) = (PidInt pid, nodepart)
    ∧ name = session_name2node_name nodepart.
Proof.
  intros (pid & nodepart & [Hsplit Hpid] & -> & H)%line_entry_spec.
  exists pid, nodepart. split; [done|].
  destruct (fragment_normal _ _ _ Hsplit) as [Ht Hs].
  split; [by apply screen_name_split|].
  destruct (Py.truthy nodename); [|done]. by destruct H as (_ & -> & ->).
Qed.

(** X9. Every key of the dictionary that [get_active_screens] returns is
    a screen name that splits into a valid process id and a session, and
    the value under the key is the node name that the session decodes
    to. *)
Theorem get_active_screens_keys (output nodename : string)
    (result : gmap string string) (screen_name name : string) :
  get_active_screens output nodename = Ok result →
  result !! screen_name = Some name →
  ∃ pid nodepart,
    pid ≠ (-1)%Z
    ∧ split_session_name (Some screen_name) = (PidInt pid, nodepart)
    ∧ name = session_name2node_name nodepart.
Proof.
  rewrite get_active_screens_lines, active_screens_lines_fold.
  intros [= <-] (item & _ & H)%foldl_add_entry_lookup.
  by eapply line_entry_decoded.
Qed.

Lemma get_active_screens_keys_witness :
  ∃ pid nodepart,
    pid ≠ (-1)%Z
    ∧ split_session_name (Some "45._x") = (PidInt pid, nodepart)
    ∧ "/x" = session_name2node_name nodepart.
Proof.
  apply (get_active_screens_keys sample_registry ""
           {[ "123._a_b" := "/a/b"; "45._x" := "/x" ]} "45._x" "/x");
    reflexivity.
Defined.

(** X10. A node name that is not well escaped is never found: for it
    [get_active_screens] returns the empty dictionary, whatever the
    registry holds. *)
Theorem get_active_screens_not_well_escaped (output nodename : string) :
  well_escaped nodename = false →
  get_active_screens output nodename = Ok ∅.
Proof.
  intros Hw. rewrite get_active_screens_lines, active_screens_lines_fold. f_equal.
  apply map_eq. intros k. rewrite lookup_empty.
  destruct (foldl _ _ _ !! k) as [v|] eqn:Hk; [|done].
  apply foldl_add_entry_lookup in Hk as (item & _ & H).
  apply line_entry_spec in H as (pid & nodepart & _ & _ & H).
  destruct nodename as [|c n]; [done|]. cbn [Py.truthy] in H.
  destruct H as (_ & Hd & _). rewrite <- Hd in Hw.
  rewrite session_name2node_name_subst in Hw. unfold Py.replace in Hw.
  rewrite collapse_well_escaped in Hw; [done|]. by apply contains_subst_char.
Qed.

Lemma get_active_screens_not_well_escaped_witness :
  well_escaped "/a/_b" = false
  ∧ get_active_screens ("7." +:+ create_session_name (Some "/a/_b")) "/a/_b" = Ok ∅.
Proof.
  split; [reflexivity|]. apply get_active_screens_not_well_escaped. reflexivity.
Defined.

(** X11. The result of the loop of [get_active_screens] depends only on
    which lines there are, not on their order nor on how often a line
    occurs. *)
Theorem active_screens_lines_same_lines (nodename : string)
    (splits splits' : list string) :
  (∀ item, item ∈ splits ↔ item ∈ splits') →
  active_screens_lines nodename ∅ splits = active_screens_lines nodename ∅ splits'.
Proof.
  intros H. rewrite !active_screens_lines_fold. f_equal.
  apply map_eq. intros k. apply option_eq. intros v.
  rewrite !foldl_add_entry_lookup. by setoid_rewrite H.
Qed.

Lemma active_screens_lines_same_lines_witness :
  active_screens_lines "" ∅ ["1._a"; "2._b"; "1._a"]
  = active_screens_lines "" ∅ ["2._b"; "1._a"].
Proof.
  apply active_screens_lines_same_lines. intros item.
  rewrite !elem_of_cons, !elem_of_nil. tauto.
Defined.

Lemma no_space_rstrip (s : string) : no_space s = true → Py.rstrip s = s.
Proof.
  induction s as [|c s IH]; [done|]. cbn [no_space Py.rstrip].
  intros [Hc%negb_true_iff Hs]%andb_true_iff. rewrite (IH Hs), Hc. by destruct s.
Qed.

Lemma no_space_strip (s : string) : no_space s = true → Py.strip s = s.
Proof.
  intros H. unfold Py.strip.
  assert (Py.lstrip s = s) as ->; [|by apply no_space_rstrip].
  destruct s as [|c s]; [done|]. cbn [no_space] in H.
  apply andb_true_iff in H as [Hc%negb_true_iff _]. cbn [Py.lstrip]. by rewrite Hc.
Qed.

Lemma no_space_no_tab (s : string) :
  no_space s = true → Py.contains "009" s = false.
Proof.
  induction s as [|c s IH]; [done|]. cbn [no_space Py.contains].
  intros [Hc%negb_true_iff Hs]%andb_true_iff. rewrite (IH Hs), orb_false_r.
  destruct (Ascii.eqb_spec "009" c) as [<-|]; [done|done].
Qed.

Lemma no_space_app (s t : string) :
  no_space (s +:+ t) = no_space s && no_space t.
Proof.
  induction s as [|c s IH]; [done|]. rewrite append_cons. cbn [no_space].
  by rewrite IH, andb_assoc.
Qed.

Lemma no_space_subst_char (c : ascii) (new s : string) :
  no_space new = true → no_space s = true → no_space (subst_char c new s) = true.
Proof.
  intros Hn. induction s as [|d s IH]; [done|]. cbn [no_space].
  intros [Hd Hs]%andb_true_iff. rewrite subst_char_cons.
  destruct (Ascii.eqb d c).
  - by rewrite no_space_app, Hn, (IH Hs).
  - cbn [no_space]. by rewrite Hd, (IH Hs).
Qed.

Lemma decimal_value_nonneg (s : string) :
  all_digits s = true → (0 ≤ decimal_value s)%Z.
Proof.
  induction s as [|c s IH]; [done|]. cbn [all_digits decimal_value].
  intros [Hc Hs]%andb_true_iff. specialize (IH Hs).
  unfold Py.isdigit in Hc. apply andb_true_iff in Hc as [Hlo%Nat.leb_le _].
  assert (0 ≤ 10 ^ Z.of_nat (String.length s))%Z by (apply Z.pow_nonneg; lia).
  nia.
Qed.

(** The line that [screen -ls] writes for a session of a node gives the
    entry of the node. *)
Lemma line_entry_of_session (digits name status : string) :
  digits ≠ "" → all_digits digits = true →
  is_global name = true → well_escaped name = true → no_space name = true →
  line_entry name
    (String "009"
       (digits +:+ "." +:+ create_session_name (Some name) +:+ String "009" status))
  = Some (Py.format_d (decimal_value digits) +:+ "." +:+ create_session_name (Some name),
          name).
Proof.
  intros Hne Hd Hg Hw Hs. apply line_entry_spec.
  exists (decimal_value digits), (create_session_name (Some name)).
  assert (no_space (create_session_name (Some name)) = true) as Hns.
  { rewrite create_session_name_subst, absolute_global by done.
    by repeat apply no_space_subst_char. }
  split; [split|split; [done|]].
  - rewrite <- append_cons, split_session_name_dot.
    + unfold Py.strip at 1. cbn [Py.lstrip]. change (Py.isspace "009") with true.
      cbv iota. fold (Py.strip digits).
      rewrite (all_digits_strip _ Hd), (int_all_digits _ Hne Hd).
      by rewrite before_append, no_space_strip by by try apply no_space_no_tab.
    + cbn [Py.contains]. by rewrite (all_digits_no_dot _ Hd).
  - pose proof (decimal_value_nonneg _ Hd). lia.
  - destruct name as [|c name]; [done|]. cbn [Py.truthy]. repeat split.
    + rewrite create_session_name_subst, absolute_global by done.
      cbn [is_global] in Hg. apply Ascii.eqb_eq in Hg as ->.
      by rewrite encode_slash, startswith_cons.
    + rewrite decode_encode, absolute_global by done. by apply collapse_doubled.
Qed.

(** X12. The session that [get_cmd] names for a node is found again: when
    [screen -ls] lists it under a process id, [get_active_screens] called
    with the node name returns the screen name of that session, mapped to
    the node name. This holds for every well escaped node name that
    starts with a slash and has no white space. *)
Theorem get_active_screens_finds_session
    (output digits name status : string) :
  digits ≠ "" → all_digits digits = true →
  is_global name = true → well_escaped name = true → no_space name = true →
  String "009"
    (digits +:+ "." +:+ create_session_name (Some name) +:+ String "009" status)
  ∈ Py.splitlines output →
  ∃ result : gmap string string,
    get_active_screens output name = Ok result
    ∧ result !! (Py.format_d (decimal_value digits) +:+ "."
                 +:+ create_session_name (Some name))
      = Some name.
Proof.
  intros Hne Hd Hg Hw Hs Hin.
  rewrite get_active_screens_lines, active_screens_lines_fold.
  eexists. split; [done|]. apply foldl_add_entry_lookup.
  eexists. split; [exact Hin|]. by apply line_entry_of_session.
Qed.

Lemma get_active_screens_finds_session_witness :
  ∃ result : gmap string string,
    get_active_screens sample_registry "/a/b" = Ok result
    ∧ result !! (Py.format_d (decimal_value "123") +:+ "."
                 +:+ create_session_name (Some "/a/b"))
      = Some "/a/b".
Proof.
  apply (get_active_screens_finds_session sample_registry "123" "/a/b" "(Detached)");
    try reflexivity; [discriminate|].
  vm_compute. apply list_elem_of_further, list_elem_of_here.
Defined.

(** ** More on the derived files *)

Lemma length_append (s t : string) :
  String.length (s +:+ t) = (String.length s + String.length t)%nat.
Proof. induction s as [|c s IH]; [done|]. rewrite append_cons. cbn. by rewrite IH. Qed.

Lemma append_inj_l (s s' t : string) : s +:+ t = s' +:+ t → s = s'.
Proof.
  revert s'. induction s as [|c s IH]; intros [|c' s'] H; [done|..].
  - apply (f_equal String.length) in H.
    rewrite append_nil_l, append_cons in H. cbn [String.length] in H.
    rewrite length_append in H. lia.
  - apply (f_equal String.length) in H.
    rewrite append_nil_l, append_cons in H. cbn [String.length] in H.
    rewrite length_append in H. lia.
  - rewrite !append_cons in H. injection H as -> H. by rewrite (IH _ H).
Qed.

Lemma last_char_append (s t : string) :
  t ≠ "" → last_char (s +:+ t) = last_char t.
Proof.
  intros Ht. induction s as [|c s IH]; [done|]. rewrite append_cons.
  cbn [last_char]. rewrite IH. destruct (s +:+ t) eqn:E; [|done].
  destruct s; [by destruct t|done].
Qed.

Section MoreFileFacts.

Variable LOG_PATH : string.

Lemma get_logfile_form (session node : option string) :
  ∃ name, get_logfile LOG_PATH session node = LOG_PATH +:+ name +:+ ".log".
Proof. destruct session, node; by eexists. Qed.

Lemma get_cfgfile_form (session node : option string) :
  ∃ name, get_cfgfile LOG_PATH session node = LOG_PATH +:+ name +:+ ".conf".
Proof. destruct session, node; by eexists. Qed.

Lemma get_pidfile_form (session node : option string) :
  ∃ name, get_pidfile LOG_PATH session node = LOG_PATH +:+ name +:+ ".pid".
Proof. destruct session, node; by eexists. Qed.

Lemma suffix_apart (a b suffix suffix' : string) :
  suffix ≠ "" → suffix' ≠ "" → last_char suffix ≠ last_char suffix' →
  LOG_PATH +:+ a +:+ suffix ≠ LOG_PATH +:+ b +:+ suffix'.
Proof.
  intros Hs Hs' Hl H. apply (f_equal last_char) in H.
  rewrite <- !append_assoc, !last_char_append in H by done. done.
Qed.

(** X13. The log file, the configuration file and the file of the process
    id are three different files, whatever sessions or nodes they are
    asked for; and two sessions never share one of them. *)
Theorem derived_files_apart (session session' node node' : option string)
    (s s' : string) :
  (get_logfile LOG_PATH session node ≠ get_cfgfile LOG_PATH session' node'
   ∧ get_logfile LOG_PATH session node ≠ get_pidfile LOG_PATH session' node'
   ∧ get_cfgfile LOG_PATH session node ≠ get_pidfile LOG_PATH session' node')
  ∧ (get_logfile LOG_PATH (Some s) node = get_logfile LOG_PATH (Some s') node' → s = s')
  ∧ (get_cfgfile LOG_PATH (Some s) node = get_cfgfile LOG_PATH (Some s') node' → s = s')
  ∧ (get_pidfile LOG_PATH (Some s) node = get_pidfile LOG_PATH (Some s') node' → s = s').
Proof.
  split; [|repeat split].
  - destruct (get_logfile_form session node) as [l ->].
    destruct (get_cfgfile_form session node) as [c ->].
    destruct (get_cfgfile_form session' node') as [c' ->].
    destruct (get_pidfile_form session' node') as [p' ->].
    repeat split; by apply suffix_apart.
  - cbn [get_logfile]. intros H%(inj (String.app LOG_PATH)). by apply append_inj_l in H.
  - cbn [get_cfgfile]. intros H%(inj (String.app LOG_PATH)). by apply append_inj_l in H.
  - cbn [get_pidfile]. intros H%(inj (String.app LOG_PATH)). by apply append_inj_l in H.
Qed.

End MoreFileFacts.

Lemma derived_files_apart_witness :
  get_logfile "/log/" (Some ("7." +:+ "_a")) None
  = get_logfile "/log/" (Some "7._a") (Some "/b")
  ∧ "7." +:+ "_a" = "7._a".
Proof.
  split; [reflexivity|].
  apply (proj1 (proj2 (derived_files_apart "/log/" None None None (Some "/b")
                         ("7." +:+ "_a") "7._a"))).
  reflexivity.
Defined.

Lemma rstrip_slash_append (s : string) :
  rstrip_slash (s +:+ "/") = rstrip_slash s.
Proof.
  induction s as [|c s IH]; [done|]. rewrite append_cons. cbn [rstrip_slash].
  by rewrite IH.
Qed.

Lemma lstrip_slash_append (s : string) :
  lstrip_slash (s +:+ "/")
  = match lstrip_slash s with
    | "" => ""
    | t => t +:+ "/"
    end.
Proof.
  induction s as [|c s IH]; [done|]. rewrite append_cons. cbn [lstrip_slash].
  by destruct (Ascii.eqb c "/").
Qed.

Lemma strip_slash_append (s : string) : strip_slash (s +:+ "/") = strip_slash s.
Proof.
  unfold strip_slash. rewrite lstrip_slash_append.
  destruct (lstrip_slash s) as [|c t] eqn:E; [done|].
  apply rstrip_slash_append.
Qed.

(** X14. The name of the ROS log file of a node has no slash behind the
    log directory, and slashes at the ends of the node name do not
    matter. *)
Theorem get_ros_logfile_flat (LOG_PATH node : string) :
  (∃ flat, get_ros_logfile LOG_PATH (Some node) = LOG_PATH +:+ flat +:+ ".log"
           ∧ Py.contains "/" flat = false)
  ∧ get_ros_logfile LOG_PATH (Some ("/" +:+ node)) = get_ros_logfile LOG_PATH (Some node)
  ∧ get_ros_logfile LOG_PATH (Some (node +:+ "/")) = get_ros_logfile LOG_PATH (Some node).
Proof.
  unfold get_ros_logfile. split; [|split].
  - eexists. split; [done|]. rewrite replace_char. by apply contains_subst_char.
  - reflexivity.
  - by rewrite strip_slash_append.
Qed.

(** ** More on the configuration writer *)




(** ** More on the log cleaner *)

Lemma remove_if_file_raise (fs : gmap string entry) (path : string) (e : exn) :
  remove_if_file fs path = Raise e →
  fs !! path = Some (RegularFile false) ∧ e = OSError path.
Proof.
  unfold remove_if_file, isfile, remove.
  destruct (fs !! path) as [[[]|]|]; try done. by intros [= <-].
Qed.

Lemma remove_files_raise (paths : list string) (fs : gmap string entry) (e : exn) :
  remove_files fs paths = Raise e →
  ∃ path, path ∈ paths ∧ fs !! path = Some (RegularFile false) ∧ e = OSError path.
Proof.
  revert fs. induction paths as [|p paths IH]; intros fs; [done|].
  cbn [remove_files]. destruct (remove_if_file fs p) as [fs1|e1] eqn:H1;
    cbn [mbind outcome_bind].
  - intros (q & Hq & Hp & ->)%IH. exists q. split; [by apply list_elem_of_further|].
    split; [|done]. rewrite (remove_if_file_lookup _ _ _ H1) in Hp.
    case_decide; [|done]. by destruct (isfile fs q).
  - intros [= ->]. apply remove_if_file_raise in H1 as [? ->].
    exists p. split; [apply list_elem_of_here|done].
Qed.

Lemma remove_files_protected (paths : list string) (fs : gmap string entry)
    (path : string) :
  path ∈ paths → fs !! path = Some (RegularFile false) →
  ∃ e, remove_files fs paths = Raise e.
Proof.
  revert fs. induction paths as [|p paths IH]; intros fs Hin Hp.
  - by apply elem_of_nil in Hin.
  - cbn [remove_files]. destruct (remove_if_file fs p) as [fs1|e1] eqn:H1;
      cbn [mbind outcome_bind]; [|by eexists].
    apply elem_of_cons in Hin as [->|Hin].
    + unfold remove_if_file, isfile, remove in H1. by rewrite Hp in H1.
    + apply IH; [done|]. rewrite (remove_if_file_lookup _ _ _ H1).
      case_decide as Hq; [|done]. subst p.
      unfold remove_if_file, isfile, remove in H1. by rewrite Hp in H1.
Qed.

(** X16. [delete_log] fails exactly when one of the four files of the node
    is a file that the system does not let go, and the error names such a
    file. *)
Theorem delete_log_raises (LOG_PATH : string) (fs : gmap string entry)
    (nodename : option string) :
  ((∃ e, delete_log LOG_PATH fs nodename = Raise e)
   ↔ ∃ path, path ∈ log_files LOG_PATH nodename
             ∧ fs !! path = Some (RegularFile false))
  ∧ ∀ e, delete_log LOG_PATH fs nodename = Raise e →
         ∃ path, path ∈ log_files LOG_PATH nodename
                 ∧ fs !! path = Some (RegularFile false) ∧ e = OSError path.
Proof.
  rewrite delete_log_remove_files. split; [split|].
  - intros [e (path & ? & ? & _)%remove_files_raise]. by exists path.
  - intros (path & Hin & Hp). by eapply remove_files_protected.
  - intros e. apply remove_files_raise.
Qed.

Lemma delete_log_raises_witness :
  ∃ path, path ∈ log_files "/log/" (Some "/a")
          ∧ ({[ "/log/_a.log" := RegularFile true; "/log/_a.conf" := RegularFile false ]}
               : gmap string entry) !! path = Some (RegularFile false)
          ∧ OSError "/log/_a.conf" = OSError path.
Proof.
  apply (proj2 (delete_log_raises "/log/"
                  {[ "/log/_a.log" := RegularFile true; "/log/_a.conf" := RegularFile false ]}
                  (Some "/a"))).
  reflexivity.
Defined.

(** ** The log directory *)

(** X17. The log directory ends with a slash, whether it comes from
    [ROS_LOG_DIR] or from the home directory, so that the derived file
    names name files in that directory. *)
Theorem log_path_ends_with_slash (environ : gmap string string) (home : string) :
  last_char (log_path environ home) = Some "/"%char.
Proof.
  unfold log_path, path_join.
  destruct (environ !! "ROS_LOG_DIR") as [[|c dir]|].
  2: { by rewrite last_char_append. }
  all: change (Py.startswith ".ros/log/" "/") with false; cbv iota;
    destruct (last_char home) as [d|]; [|done];
    destruct (Ascii.eqb d "/"); by rewrite ?last_char_append.
Qed.
